(** * Approval workflow of the WFM application (SwapTool)

    A shallow embedding of the request-creation pages
    ([CreateLeaveRequest], [CreateSwapRequest]), the settings page, the
    leave-request listing and the two decision operations of the approval
    workflow.  Database tables are lists of rows; a Supabase query is the
    list function that its builder chain denotes.  Dates are the value of
    [new Date(s)] for the date string [s], counted in days; timestamps are
    clock readings in milliseconds. *)

From Stdlib Require Import ZArith List String Bool Sorted.
From stdpp Require Import base gmap strings list.
Import ListNotations.
Open Scope Z_scope.

(* ------------------------------------------------------------------ *)
(** ** Data model ([src/types]) *)

Inductive UserRole := agent | tl | wfm.

Inductive LeaveType := sick | annual | casual | public_holiday | bereavement.

Inductive LeaveRequestStatus := pending_tl | pending_wfm | approved | rejected.

Inductive SwapRequestStatus :=
  | pending_acceptance | pending_approval | swap_approved | swap_rejected | declined.

Inductive ShiftType := AM | PM | BET | OFF.

#[global] Instance UserRole_eq_dec : EqDecision UserRole.
Proof. solve_decision. Defined.
#[global] Instance LeaveRequestStatus_eq_dec : EqDecision LeaveRequestStatus.
Proof. solve_decision. Defined.
#[global] Instance SwapRequestStatus_eq_dec : EqDecision SwapRequestStatus.
Proof. solve_decision. Defined.

Record User := { u_id : string; u_name : string; u_role : UserRole }.

(** A row of [leave_requests]. *)
Record LeaveRequest := {
  lr_id : string;
  lr_user_id : string;
  lr_leave_type : LeaveType;
  lr_start_date : Z;
  lr_end_date : Z;
  lr_notes : string;
  lr_status : LeaveRequestStatus;
  lr_tl_approved_at : option Z;
  lr_wfm_approved_at : option Z;
  lr_created_at : Z
}.

(** A row of [settings] (migration 003: [key TEXT UNIQUE], [value TEXT]). *)
Record SettingRow := { s_key : string; s_value : string }.

(** Outcome of an operation that may fail with an error of type [E]. *)
Inductive result (A E : Type) := Ok (a : A) | Err (e : E).
Arguments Ok {A E} a.
Arguments Err {A E} e.

(* ------------------------------------------------------------------ *)
(** ** Supabase [.single()] *)

(** PostgREST error code for "no (or more than one) row" returned by
    [.single()]. *)
Definition PGRST116 : string := "PGRST116".

(** [{ data, error }] of a [.single()] query over the selected rows. *)
Definition single {A} (rows : list A) : option A * option string :=
  match rows with
  | [r] => (Some r, None)
  | _ => (None, Some PGRST116)
  end.

(** [supabase.from('settings').select('value').eq('key', k).single()] *)
Definition select_setting (settings : list SettingRow) (k : string)
  : option string * option string :=
  let '(data, err) :=
    single (List.filter (fun r => bool_decide (s_key r = k)) settings) in
  (option_map s_value data, err).

(** [data?.value === 'true'] *)
Definition value_is_true (v : option string) : bool :=
  match v with Some s => bool_decide (s = "true") | None => false end.

(** [const isAutoApprove = settings?.value === 'true'] after reading the
    [wfm_auto_approve] row with [.single()]. *)
Definition autoApproveFlag (settings : list SettingRow) : bool :=
  value_is_true (fst (select_setting settings "wfm_auto_approve")).

(* ------------------------------------------------------------------ *)
(** ** [CreateLeaveRequest.handleSubmit] (Headcount/EmployeeDirectory.tsx) *)

(** The form state.  A date input holds [""] ([None]) or a date whose
    [new Date(...)] value is the given day number. *)
Record LeaveForm := {
  f_leave_type : LeaveType;
  f_start_date : option Z;
  f_end_date : option Z;
  f_notes : string
}.

(** Failures shown by [setError]: [MissingDates] is 'Please select both
    start and end dates', [InvalidRange] is 'End date cannot be before
    start date', [InsertFailed] is the [insertError] thrown at line 204 and
    shown by the catch (lines 207-209). *)
Inductive LeaveFormError := MissingDates | InvalidRange | InsertFailed.

(** What the environment supplies while the handler runs: the two readings
    of [new Date()] made while building the insert object (first for
    [wfm_approved_at], then for [tl_approved_at]), the id and
    [created_at] the database assigns to the inserted row, and whether the
    database accepts the insert ([insertError] is null); the table's
    constraints and policies are not part of this repository, so the
    answer is an input. *)
Record LeaveEnv := {
  env_clock_wfm : Z;
  env_clock_tl : Z;
  env_new_id : string;
  env_db_now : Z;
  env_insert_ok : bool
}.

(** The row built at lines 193-201 and inserted with its database defaults. *)
Definition leave_insert_row (uid : string) (f : LeaveForm) (s e : Z)
    (isAutoApprove : bool) (env : LeaveEnv) : LeaveRequest := {|
  lr_id := env_new_id env;
  lr_user_id := uid;
  lr_leave_type := f_leave_type f;
  lr_start_date := s;
  lr_end_date := e;
  lr_notes := f_notes f;
  lr_status := if isAutoApprove then approved else pending_tl;
  lr_wfm_approved_at := if isAutoApprove then Some (env_clock_wfm env) else None;
  lr_tl_approved_at := if isAutoApprove then Some (env_clock_tl env) else None;
  lr_created_at := env_db_now env
|}.

(** The handler: returns the outcome and the new [leave_requests] table. *)
Definition createLeaveRequest (uid : string) (f : LeaveForm)
    (settings : list SettingRow) (env : LeaveEnv) (table : list LeaveRequest)
  : result LeaveRequest LeaveFormError * list LeaveRequest :=
  match f_start_date f, f_end_date f with
  | Some s, Some e =>
      if e <? s then (Err InvalidRange, table)
      else
        (* 1. Check for Auto-Approve setting *)
        let isAutoApprove := autoApproveFlag settings in
        (* 2. Insert the request *)
        let row := leave_insert_row uid f s e isAutoApprove env in
        (* [if (insertError) throw insertError], caught by [setError] *)
        if env_insert_ok env then (Ok row, table ++ [row])
        else (Err InsertFailed, table)
  | _, _ => (Err MissingDates, table)
  end.

(* ------------------------------------------------------------------ *)
(** ** [Settings.fetchSettings] (pages/Settings.tsx) *)

(** The value [autoApprove] holds after [fetchSettings], starting from the
    initial [useState(false)]: an error other than [PGRST116] is thrown
    and caught, leaving the state as it was. *)
Definition fetchSettings (settings : list SettingRow) (autoApprove : bool) : bool :=
  let '(data, err) := select_setting settings "wfm_auto_approve" in
  match err with
  | Some code => if bool_decide (code = PGRST116) then value_is_true data
                 else autoApprove
  | None => value_is_true data
  end.

(* ------------------------------------------------------------------ *)
(** ** Shifts and swap requests *)

(** A row of [shifts]; [swapped_with_user_id] and [original_user_id] are
    the swap-tracking columns of migration 004 (in 003, lines 129-130). *)
Record Shift := {
  sh_id : string;
  sh_user_id : string;
  sh_date : Z;
  sh_shift_type : ShiftType;
  sh_swapped_with_user_id : option string;
  sh_original_user_id : option string
}.

(** A row of [swap_requests], with the snapshot columns of migration 006. *)
Record SwapRequest := {
  sr_id : string;
  sr_requester_id : string;
  sr_target_user_id : string;
  sr_requester_shift_id : string;
  sr_target_shift_id : string;
  sr_status : SwapRequestStatus;
  sr_requester_original_date : option Z;
  sr_requester_original_shift_type : option ShiftType;
  sr_target_original_date : option Z;
  sr_target_original_shift_type : option ShiftType;
  sr_created_at : Z
}.

(** The database as the swap pages see it; tables with a primary key [id]
    are maps from the id to the row. *)
Record World := {
  w_users : list User;
  w_settings : list SettingRow;
  w_shifts : gmap string Shift;
  w_swaps : gmap string SwapRequest
}.

Definition shift_rows (w : World) : list Shift := map snd (map_to_list (w_shifts w)).

(* ------------------------------------------------------------------ *)
(** ** [CreateSwapRequest] (pages/CreateSwapRequest.tsx) *)

(** [fetchAgents]: [users] with [.eq('role', 'agent').neq('id', user.id)]
    (the [.order('name')] only orders the options). *)
Definition fetchAgents (w : World) (me : User) : list User :=
  List.filter (fun u => bool_decide (u_role u = agent) && negb (bool_decide (u_id u = u_id me)))
    (w_users w).

(** [fetchMyShifts] / [fetchTargetShifts]: [shifts] with
    [.eq('user_id', uid).gte('date', today)] ([.order('date')] dropped). *)
Definition fetchShifts (w : World) (uid : string) (today : Z) : list Shift :=
  List.filter (fun s => bool_decide (sh_user_id s = uid) && (today <=? sh_date s)) (shift_rows w).

(** The values a [<select>] of the form can take: the empty placeholder
    option and one value per fetched row. *)
Definition target_user_options (w : World) (me : User) : list string :=
  "" :: map u_id (fetchAgents w me).

Definition shift_options (w : World) (uid : string) (today : Z) : list string :=
  "" :: map sh_id (fetchShifts w uid today).

(** The form state at submission. *)
Record SwapForm := {
  targetUserId : string;
  myShiftId : string;
  targetShiftId : string
}.

(** Failures shown by [setError]. *)
Inductive SwapFormError :=
  | NoTargetUser       (* 'Please select a target user' *)
  | NoMyShift          (* 'Please select your shift date' *)
  | NoTargetShift      (* 'Please select their shift date' *)
  | SwapInsertFailed.  (* 'Failed to create swap request. Please try again.' *)

(** INSERT policy of [swap_requests] (migration 005):
    [auth.uid() = requester_id OR role IN ('wfm', 'tl')]. *)
Definition swap_insert_allowed (me : User) (row : SwapRequest) : bool :=
  bool_decide (u_id me = sr_requester_id row)
  || bool_decide (u_role me = wfm) || bool_decide (u_role me = tl).

(** The object inserted at lines 134-140; every column it leaves out takes
    its default ([NULL] for the snapshot columns). *)
Definition swap_insert_row (me : User) (f : SwapForm) (new_id : string) (now : Z)
  : SwapRequest := {|
  sr_id := new_id;
  sr_requester_id := u_id me;
  sr_target_user_id := targetUserId f;
  sr_requester_shift_id := myShiftId f;
  sr_target_shift_id := targetShiftId f;
  sr_status := pending_acceptance;
  sr_requester_original_date := None;
  sr_requester_original_shift_type := None;
  sr_target_original_date := None;
  sr_target_original_shift_type := None;
  sr_created_at := now
|}.

(** [handleSubmit]; [new_id] and [now] are the id and [created_at] the
    database gives the new row. *)
Definition createSwapRequest (me : User) (f : SwapForm) (new_id : string) (now : Z)
    (w : World) : result SwapRequest SwapFormError * World :=
  if bool_decide (targetUserId f = "") then (Err NoTargetUser, w)
  else if bool_decide (myShiftId f = "") then (Err NoMyShift, w)
  else if bool_decide (targetShiftId f = "") then (Err NoTargetShift, w)
  else
    let row := swap_insert_row me f new_id now in
    if swap_insert_allowed me row then
      (Ok row, {| w_users := w_users w; w_settings := w_settings w;
                  w_shifts := w_shifts w; w_swaps := <[new_id := row]> (w_swaps w) |})
    else (Err SwapInsertFailed, w).

(* ------------------------------------------------------------------ *)
(** ** Decision operations of the approval workflow *)

Inductive Decision := approve | reject.

(** Failures of the decision operations (spec section 7). *)
Inductive DecideError := Unauthorized | NotFound | TerminalState | InvalidState.

Definition is_manager (r : UserRole) : bool :=
  match r with tl | wfm => true | agent => false end.

Definition set_leave_decision (r : LeaveRequest) (st : LeaveRequestStatus)
    (tl_at wfm_at : option Z) : LeaveRequest := {|
  lr_id := lr_id r; lr_user_id := lr_user_id r; lr_leave_type := lr_leave_type r;
  lr_start_date := lr_start_date r; lr_end_date := lr_end_date r;
  lr_notes := lr_notes r; lr_status := st;
  lr_tl_approved_at := tl_at; lr_wfm_approved_at := wfm_at;
  lr_created_at := lr_created_at r
|}.

(** Modelled from the spec: [decideLeaveRequest], whose source
    (LeaveRequestDetail.tsx) is not part of the sources given.  The
    state-machine table of spec section 4.1: from [pending_tl] an approve
    needs role [tl] or [wfm] and a reject needs none, both stamp the
    team-lead decision time; from [pending_wfm] an approve needs role
    [wfm] and a reject needs none, both stamp the workforce-manager
    decision time; [approved] and [rejected] are terminal.  [now] is the
    decision time. *)
Definition decideLeaveRequest (r : LeaveRequest) (role : UserRole) (d : Decision)
    (now : Z) : result LeaveRequest DecideError :=
  match lr_status r, d with
  | pending_tl, approve =>
      if is_manager role
      then Ok (set_leave_decision r pending_wfm (Some now) (lr_wfm_approved_at r))
      else Err Unauthorized
  | pending_tl, reject =>
      Ok (set_leave_decision r rejected (Some now) (lr_wfm_approved_at r))
  | pending_wfm, approve =>
      match role with
      | wfm => Ok (set_leave_decision r approved (lr_tl_approved_at r) (Some now))
      | _ => Err Unauthorized
      end
  | pending_wfm, reject =>
      Ok (set_leave_decision r rejected (lr_tl_approved_at r) (Some now))
  | approved, _ | rejected, _ => Err TerminalState
  end.

Definition set_swap_status (r : SwapRequest) (st : SwapRequestStatus) : SwapRequest := {|
  sr_id := sr_id r; sr_requester_id := sr_requester_id r;
  sr_target_user_id := sr_target_user_id r;
  sr_requester_shift_id := sr_requester_shift_id r;
  sr_target_shift_id := sr_target_shift_id r;
  sr_status := st;
  sr_requester_original_date := sr_requester_original_date r;
  sr_requester_original_shift_type := sr_requester_original_shift_type r;
  sr_target_original_date := sr_target_original_date r;
  sr_target_original_shift_type := sr_target_original_shift_type r;
  sr_created_at := sr_created_at r
|}.

(** Hand shift [s] over to [new_owner], recording the swap-tracking columns. *)
Definition reassign_shift (s : Shift) (new_owner : string) : Shift := {|
  sh_id := sh_id s; sh_user_id := new_owner; sh_date := sh_date s;
  sh_shift_type := sh_shift_type s;
  sh_swapped_with_user_id := Some new_owner;
  sh_original_user_id := Some (sh_user_id s)
|}.

Definition with_tables (w : World) (shifts : gmap string Shift)
    (swaps : gmap string SwapRequest) : World := {|
  w_users := w_users w; w_settings := w_settings w;
  w_shifts := shifts; w_swaps := swaps
|}.

(** Modelled from the spec: [decideSwapRequest], whose source
    (SwapRequestDetail.tsx) is not part of the sources given.  Spec
    section 4.1: valid only from [pending_approval] ([TerminalState] from
    a terminal status; the spec names no error for [pending_acceptance],
    here [InvalidState]); the actor role must be [tl] or [wfm]; an approve
    sets [approved] and exchanges the owners of the two referenced shifts
    in the same state change, a reject sets [rejected].  Both owners are
    read before either shift is written. *)
Definition decideSwapRequest (w : World) (id : string) (role : UserRole)
    (d : Decision) : result World DecideError :=
  match w_swaps w !! id with
  | None => Err NotFound
  | Some r =>
      match sr_status r with
      | swap_approved | swap_rejected | declined => Err TerminalState
      | pending_acceptance => Err InvalidState
      | pending_approval =>
          if negb (is_manager role) then Err Unauthorized else
          match d with
          | reject =>
              Ok (with_tables w (w_shifts w)
                    (<[id := set_swap_status r swap_rejected]> (w_swaps w)))
          | approve =>
              let rsid := sr_requester_shift_id r in
              let tsid := sr_target_shift_id r in
              match w_shifts w !! rsid, w_shifts w !! tsid with
              | Some a, Some b =>
                  let shifts' :=
                    <[rsid := reassign_shift a (sh_user_id b)]>
                      (<[tsid := reassign_shift b (sh_user_id a)]> (w_shifts w)) in
                  Ok (with_tables w shifts'
                        (<[id := set_swap_status r swap_approved]> (w_swaps w)))
              | _, _ => Err NotFound
              end
          end
      end
  end.

(** The caller commits a successful result and keeps the state otherwise. *)
Definition commit {E} (w : World) (res : result World E) : World :=
  match res with Ok w' => w' | Err _ => w end.

Definition shift_owner (w : World) (sid : string) : option string :=
  sh_user_id <$> w_shifts w !! sid.

(* ------------------------------------------------------------------ *)
(** ** [LeaveRequests.fetchRequests] (pages/LeaveRequests.tsx) *)

Definition ITEMS_PER_PAGE : nat := 10.

(** The filters a query of the page can carry. *)
Inductive LeaveFilter :=
  | eq_user_id (uid : string)
  | gte_start_date (d : Z)
  | lte_end_date (d : Z)
  | eq_leave_type (t : LeaveType).

#[global] Instance LeaveType_eq_dec : EqDecision LeaveType.
Proof. solve_decision. Defined.

Definition filter_holds (r : LeaveRequest) (f : LeaveFilter) : bool :=
  match f with
  | eq_user_id u => bool_decide (lr_user_id r = u)
  | gte_start_date d => d <=? lr_start_date r
  | lte_end_date d => lr_end_date r <=? d
  | eq_leave_type t => bool_decide (lr_leave_type r = t)
  end.

(** [const isManager = user?.role === 'tl' || user?.role === 'wfm'] *)
Definition isManager (me : User) : bool :=
  bool_decide (u_role me = tl) || bool_decide (u_role me = wfm).

(** The filters [fetchRequests] chains onto the query, in order; a filter
    value of the page is [""] ([None]) or set. *)
Definition leave_query_filters (me : User) (startDate endDate : option Z)
    (leaveTypeFilter : option LeaveType) : list LeaveFilter :=
  (if negb (isManager me) then [eq_user_id (u_id me)] else [])
  ++ match startDate with Some d => [gte_start_date d] | None => [] end
  ++ match endDate with Some d => [lte_end_date d] | None => [] end
  ++ match leaveTypeFilter with Some t => [eq_leave_type t] | None => [] end.

Definition apply_filters (fs : list LeaveFilter) (rows : list LeaveRequest)
  : list LeaveRequest :=
  List.filter (fun r => forallb (filter_holds r) fs) rows.

(** [.order('created_at', { ascending: false })]: an insertion sort, newest
    first.  The list it sorts is the table as this query reads it; rows
    with equal [created_at] keep that read order.  PostgreSQL gives no
    fixed order to such ties and may read them differently in each query,
    so statements about several page queries give each query its own read
    of the table (a permutation of it). *)
Fixpoint insert_desc (r : LeaveRequest) (l : list LeaveRequest) : list LeaveRequest :=
  match l with
  | [] => [r]
  | x :: l' => if lr_created_at x <=? lr_created_at r then r :: l
               else x :: insert_desc r l'
  end.

Fixpoint order_created_desc (l : list LeaveRequest) : list LeaveRequest :=
  match l with
  | [] => []
  | x :: l' => insert_desc x (order_created_desc l')
  end.

(** [b] comes no earlier than [a] in a newest-first order. *)
Definition newer_or_same (a b : LeaveRequest) : Prop := lr_created_at b <= lr_created_at a.

(** [.range(from, to)]: rows [from] to [to], both inclusive. *)
Definition range {A} (from to : nat) (l : list A) : list A :=
  take (S to - from) (drop from l).

(** The rows [fetchRequests] puts into [requests] for page [page] ([>= 1]). *)
Definition fetchRequests (me : User) (page : nat) (startDate endDate : option Z)
    (leaveTypeFilter : option LeaveType) (table : list LeaveRequest)
  : list LeaveRequest :=
  range ((page - 1) * ITEMS_PER_PAGE) (page * ITEMS_PER_PAGE - 1)
    (order_created_desc
       (apply_filters (leave_query_filters me startDate endDate leaveTypeFilter) table)).

Definition with_settings (w : World) (settings : list SettingRow) : World := {|
  w_users := w_users w; w_settings := settings;
  w_shifts := w_shifts w; w_swaps := w_swaps w
|}.

(* ------------------------------------------------------------------ *)
(** ** [Settings.handleToggle] (pages/Settings.tsx) *)

(** [newValue.toString()] *)
Definition bool_to_string (b : bool) : string := if b then "true" else "false".

(** Row-level security of [settings] (migration 003, lines 106-124): the
    UPDATE and the INSERT policy both require the acting user's role to be
    [wfm]; an upsert takes one of the two paths. *)
Definition settings_write_allowed (me : User) : bool := bool_decide (u_role me = wfm).

(** [.upsert({ key, value }, { onConflict: 'key' })]: overwrite the value
    of the row with that key, or append a new row. *)
Definition upsert_setting (settings : list SettingRow) (k v : string) : list SettingRow :=
  if existsb (fun r => bool_decide (s_key r = k)) settings
  then map (fun r => if bool_decide (s_key r = k) then {| s_key := k; s_value := v |} else r)
         settings
  else settings ++ [{| s_key := k; s_value := v |}].

Definition settings_upsert (me : User) (settings : list SettingRow) (k v : string)
  : option (list SettingRow) :=
  if settings_write_allowed me then Some (upsert_setting settings k v) else None.

(** [handleToggle]: the new [autoApprove] state, the [message] shown and
    the [settings] table afterwards. *)
Definition handleToggle (me : User) (autoApprove : bool) (settings : list SettingRow)
  : bool * string * list SettingRow :=
  let newValue := negb autoApprove in
  match settings_upsert me settings "wfm_auto_approve" (bool_to_string newValue) with
  | Some settings' => (newValue, "Settings saved successfully!", settings')
  | None => (autoApprove, "Failed to save settings", settings)
  end.

(* ------------------------------------------------------------------ *)
(** ** [Layout] (components/Layout.tsx) *)

Record NavItem := { nav_name : string; nav_href : string; nav_roles : list UserRole }.

(** [navItems] without their icons. *)
Definition navItems : list NavItem := [
  {| nav_name := "Dashboard"; nav_href := "/dashboard"; nav_roles := [agent; tl; wfm] |};
  {| nav_name := "Schedule"; nav_href := "/schedule"; nav_roles := [agent; tl; wfm] |};
  {| nav_name := "Swap Requests"; nav_href := "/swap-requests"; nav_roles := [agent; tl; wfm] |};
  {| nav_name := "Leave Requests"; nav_href := "/leave-requests"; nav_roles := [agent; tl; wfm] |};
  {| nav_name := "Leave Balances"; nav_href := "/leave-balances"; nav_roles := [agent; tl; wfm] |};
  {| nav_name := "Schedule Upload"; nav_href := "/schedule/upload"; nav_roles := [wfm] |};
  {| nav_name := "Settings"; nav_href := "/settings"; nav_roles := [wfm] |}
].

(** [navItems.filter(item => user && item.roles.includes(user.role))] *)
Definition filteredNavItems (user : option User) : list NavItem :=
  List.filter (fun item =>
    match user with
    | Some u => existsb (fun r => bool_decide (r = u_role u)) (nav_roles item)
    | None => false
    end) navItems.

(** [JSON.stringify] of a boolean. *)
Definition json_stringify_bool (b : bool) : string := if b then "true" else "false".

(** [JSON.parse] on the strings that denote a boolean; any other string is
    not modelled ([None]). *)
Definition json_parse_bool (s : string) : option bool :=
  if bool_decide (s = "true") then Some true
  else if bool_decide (s = "false") then Some false else None.

Definition SIDEBAR_COLLAPSED_KEY : string := "swaptool_sidebar_collapsed".

(** The initial [sidebarCollapsed]: [saved ? JSON.parse(saved) : false]
    ([""] and a missing key are falsy). *)
Definition sidebar_initial (storage : gmap string string) : option bool :=
  match storage !! SIDEBAR_COLLAPSED_KEY with
  | Some saved => if bool_decide (saved = "") then Some false else json_parse_bool saved
  | None => Some false
  end.

(** The effect [localStorage.setItem(KEY, JSON.stringify(sidebarCollapsed))]. *)
Definition sidebar_save (storage : gmap string string) (collapsed : bool)
  : gmap string string :=
  <[SIDEBAR_COLLAPSED_KEY := json_stringify_bool collapsed]> storage.

(* ------------------------------------------------------------------ *)
(** ** Pagination of [LeaveRequests] (pages/LeaveRequests.tsx) *)

(** [Math.ceil(totalCount / ITEMS_PER_PAGE)] *)
Definition totalPages (totalCount : nat) : nat :=
  (totalCount + ITEMS_PER_PAGE - 1) / ITEMS_PER_PAGE.

(** [setPage(p => Math.max(1, p - 1))] and
    [setPage(p => Math.min(totalPages, p + 1))]. *)
Definition prev_page (p : nat) : nat := Nat.max 1 (p - 1).
Definition next_page (total p : nat) : nat := Nat.min total (p + 1).

(** [count: 'exact']: the number of rows the filters select. *)
Definition leave_total_count (me : User) (startDate endDate : option Z)
    (leaveTypeFilter : option LeaveType) (table : list LeaveRequest) : nat :=
  length (apply_filters (leave_query_filters me startDate endDate leaveTypeFilter) table).

(** The label "Showing [from] to [to] of [totalCount]". *)
Definition showing_from (page : nat) : nat := (page - 1) * ITEMS_PER_PAGE + 1.
Definition showing_to (page totalCount : nat) : nat :=
  Nat.min (page * ITEMS_PER_PAGE) totalCount.

(* ------------------------------------------------------------------ *)
(** ** Target selection of [CreateSwapRequest] *)

(** The page state the form's effects touch. *)
Record SwapPage := {
  pg_form : SwapForm;
  pg_targetShifts : list Shift
}.

(** [setTargetUserId(t)] followed by the effect on [[targetUserId]]: an
    empty target clears the target shifts and the chosen target shift;
    otherwise [fetchTargetShifts] runs, and only when its query succeeds
    ([fetch_ok]) does it store the rows and clear [targetShiftId]; on an
    error the catch block leaves both as they were. *)
Definition change_target (w : World) (today : Z) (fetch_ok : bool) (pg : SwapPage)
    (t : string) : SwapPage :=
  let f := pg_form pg in
  if bool_decide (t = "") then
    {| pg_form := {| targetUserId := t; myShiftId := myShiftId f; targetShiftId := "" |};
       pg_targetShifts := [] |}
  else if fetch_ok then
    {| pg_form := {| targetUserId := t; myShiftId := myShiftId f; targetShiftId := "" |};
       pg_targetShifts := fetchShifts w t today |}
  else
    {| pg_form := {| targetUserId := t; myShiftId := myShiftId f;
                     targetShiftId := targetShiftId f |};
       pg_targetShifts := pg_targetShifts pg |}.

(* ------------------------------------------------------------------ *)
(** ** Row-level security policies (migrations 003 and 005) *)

(** [EXISTS (SELECT 1 FROM users u WHERE u.id = auth.uid() AND u.role IN roles)] *)
Definition has_role (users : list User) (uid : string) (roles : list UserRole) : bool :=
  existsb (fun u => bool_decide (u_id u = uid)
                    && existsb (fun r => bool_decide (r = u_role u)) roles) users.

Inductive RequestType := req_leave | req_swap.

(** A row of [comments]. *)
Record Comment := {
  c_request_id : string;
  c_request_type : RequestType;
  c_user_id : string;
  c_content : string
}.

(** The rows the comment policies consult. *)
Record PolicyDb := {
  db_users : list User;
  db_leaves : list LeaveRequest;
  db_swaps : list SwapRequest
}.

(** [EXISTS (SELECT 1 FROM leave_requests lr WHERE lr.id = rid AND lr.user_id = uid)] *)
Definition owns_leave (db : PolicyDb) (rid uid : string) : bool :=
  existsb (fun lr => bool_decide (lr_id lr = rid) && bool_decide (lr_user_id lr = uid))
    (db_leaves db).

(** [EXISTS (SELECT 1 FROM swap_requests sr WHERE sr.id = rid
    AND (sr.requester_id = uid OR sr.target_user_id = uid))] *)
Definition party_to_swap (db : PolicyDb) (rid uid : string) : bool :=
  existsb (fun sr => bool_decide (sr_id sr = rid)
                     && (bool_decide (sr_requester_id sr = uid)
                         || bool_decide (sr_target_user_id sr = uid)))
    (db_swaps db).

(** "Users can view comments on their requests" (003, lines 37-63). *)
Definition comment_select_policy (db : PolicyDb) (uid : string) (c : Comment) : bool :=
  bool_decide (uid = c_user_id c)
  || (match c_request_type c with
      | req_leave => owns_leave db (c_request_id c) uid
      | req_swap => false
      end)
  || (match c_request_type c with
      | req_swap => party_to_swap db (c_request_id c) uid
      | req_leave => false
      end)
  || has_role (db_users db) uid [tl; wfm].

(** "Users can add comments" (003, lines 66-99). *)
Definition comment_insert_policy (db : PolicyDb) (uid : string) (c : Comment) : bool :=
  bool_decide (uid = c_user_id c)
  && (match c_request_type c with
      | req_leave => owns_leave db (c_request_id c) uid
                     || has_role (db_users db) uid [tl; wfm]
      | req_swap => party_to_swap db (c_request_id c) uid
                    || has_role (db_users db) uid [tl; wfm]
      end).

(** The [swap_requests] policies of migration 005: SELECT and UPDATE for
    the requester, the target and the managers; INSERT and DELETE for the
    requester and the managers. *)
Definition swap_select_policy (users : list User) (uid : string) (sr : SwapRequest) : bool :=
  bool_decide (uid = sr_requester_id sr) || bool_decide (uid = sr_target_user_id sr)
  || has_role users uid [wfm; tl].

Definition swap_update_policy (users : list User) (uid : string) (sr : SwapRequest) : bool :=
  bool_decide (uid = sr_requester_id sr) || bool_decide (uid = sr_target_user_id sr)
  || has_role users uid [wfm; tl].

Definition swap_insert_policy (users : list User) (uid : string) (sr : SwapRequest) : bool :=
  bool_decide (uid = sr_requester_id sr) || has_role users uid [wfm; tl].

Definition swap_delete_policy (users : list User) (uid : string) (sr : SwapRequest) : bool :=
  bool_decide (uid = sr_requester_id sr) || has_role users uid [wfm; tl].

(* ------------------------------------------------------------------ *)
(** ** Leave balances (migration 004, in 003 lines 133-289) *)

(** A row of [leave_balances]; [leave_type] is a [VARCHAR(50)] and the
    [DECIMAL(5,2)] balance is counted in hundredths. *)
Record LeaveBalance := {
  lb_user_id : string;
  lb_leave_type : string;
  lb_balance : Z
}.

(** A row of [leave_balance_history] (amounts in hundredths). *)
Record BalanceHistory := {
  h_user_id : string;
  h_leave_type : string;
  h_change_amount : Z;
  h_reason : string;
  h_balance_before : Z;
  h_balance_after : Z;
  h_created_by : option string
}.

(** Policies of [leave_balances] and [leave_balance_history] (lines 262-289). *)
Definition balance_select_policy (users : list User) (uid : string) (b : LeaveBalance) : bool :=
  bool_decide (uid = lb_user_id b) || has_role users uid [tl; wfm].

Definition balance_update_policy (users : list User) (uid : string) (b : LeaveBalance) : bool :=
  has_role users uid [wfm].

Definition history_insert_policy (users : list User) (uid : string) (h : BalanceHistory) : bool :=
  has_role users uid [wfm] || bool_decide (h_created_by h = None).

(** A [DECIMAL(5,2)] holds at most five digits: [|v| < 1000.00]. *)
Definition fits_decimal_5_2 (v : Z) : bool := Z.abs v <? 100000.

(** The five types [initialize_user_leave_balances] creates. *)
Definition initial_leave_types : list string :=
  ["annual"; "casual"; "sick"; "public_holiday"; "bereavement"].

(** [user_id = uid AND leave_type = t] *)
Definition row_matches (uid t : string) (b : LeaveBalance) : bool :=
  bool_decide (lb_user_id b = uid) && bool_decide (lb_leave_type b = t).

Definition has_balance_row (bal : list LeaveBalance) (uid t : string) : bool :=
  existsb (row_matches uid t) bal.

(** [INSERT INTO leave_balances ... VALUES (NEW.id, t, 0), ...
    ON CONFLICT (user_id, leave_type) DO NOTHING]: the rows are inserted
    in order, each one skipped when its [(user_id, leave_type)] exists. *)
Definition insert_balance_if_absent (bal : list LeaveBalance) (uid t : string)
  : list LeaveBalance :=
  if has_balance_row bal uid t then bal
  else bal ++ [{| lb_user_id := uid; lb_leave_type := t; lb_balance := 0 |}].

Definition initialize_user_leave_balances (bal : list LeaveBalance) (uid : string)
  : list LeaveBalance :=
  fold_left (fun acc t => insert_balance_if_absent acc uid t) initial_leave_types bal.

(** [UPDATE leave_balances SET balance = balance + amt WHERE user_id = uid
    AND leave_type = t]; a result that does not fit [DECIMAL(5,2)] raises
    "numeric field overflow" ([None]). *)
Definition bump (uid t : string) (amt : Z) (b : LeaveBalance) : LeaveBalance :=
  if row_matches uid t b
  then {| lb_user_id := lb_user_id b; lb_leave_type := lb_leave_type b;
          lb_balance := lb_balance b + amt |}
  else b.

Definition accrue_update (bal : list LeaveBalance) (uid t : string) (amt : Z)
  : option (list LeaveBalance) :=
  let fits b := if row_matches uid t b then fits_decimal_5_2 (lb_balance b + amt) else true in
  if forallb fits bal then Some (map (bump uid t amt) bal) else None.

(** The [INSERT INTO leave_balance_history ... SELECT ... FROM leave_balances
    lb WHERE lb.user_id = uid AND lb.leave_type = t] that follows. *)
Definition accrue_history (bal : list LeaveBalance) (uid t : string) (amt : Z)
  : list BalanceHistory :=
  map (fun lb => {| h_user_id := uid; h_leave_type := t; h_change_amount := amt;
                    h_reason := "monthly_accrual";
                    h_balance_before := lb_balance lb - amt;
                    h_balance_after := lb_balance lb; h_created_by := None |})
    (List.filter (row_matches uid t) bal).

(** One pass of the loop body for [user_record.id = uid]: +1.25 annual,
    its history, +0.5 casual, its history. *)
Definition accrue_user (st : list LeaveBalance * list BalanceHistory) (uid : string)
  : option (list LeaveBalance * list BalanceHistory) :=
  let '(bal, hist) := st in
  match accrue_update bal uid "annual" 125 with
  | None => None
  | Some bal1 =>
      let hist1 := hist ++ accrue_history bal1 uid "annual" 125 in
      match accrue_update bal1 uid "casual" 50 with
      | None => None
      | Some bal2 => Some (bal2, hist1 ++ accrue_history bal2 uid "casual" 50)
      end
  end.

(** [accrue_monthly_leave_balances()]: the loop over [SELECT id FROM users];
    an error aborts the function and its statement rolls back ([None]). *)
Fixpoint accrue_loop (uids : list string) (st : list LeaveBalance * list BalanceHistory)
  : option (list LeaveBalance * list BalanceHistory) :=
  match uids with
  | [] => Some st
  | uid :: rest =>
      match accrue_user st uid with
      | None => None
      | Some st' => accrue_loop rest st'
      end
  end.

Definition accrue_monthly_leave_balances (users : list User) (bal : list LeaveBalance)
    (hist : list BalanceHistory) : option (list LeaveBalance * list BalanceHistory) :=
  accrue_loop (map u_id users) (bal, hist).

(** The amounts of [accrue_monthly_leave_balances], in hundredths. *)
Definition accrual_amount (t : string) : Z :=
  if bool_decide (t = "annual") then 125
  else if bool_decide (t = "casual") then 50 else 0.

(** A row after one accrual pass over the users [uids]; used to state the
    effect of the loop. *)
Definition accrued (uids : list string) (b : LeaveBalance) : LeaveBalance :=
  if bool_decide (lb_user_id b ∈ uids)
  then {| lb_user_id := lb_user_id b; lb_leave_type := lb_leave_type b;
          lb_balance := lb_balance b + accrual_amount (lb_leave_type b) |}
  else b.

(** The rows the pass over [uids] accrues: the annual and casual balances
    of those users. *)
Definition accrues (uids : list string) (b : LeaveBalance) : bool :=
  bool_decide (lb_user_id b ∈ uids)
  && (bool_decide (lb_leave_type b = "annual") || bool_decide (lb_leave_type b = "casual")).

(** The history row the accrual writes for the balance row [b] (given the
    balance [b] held before the pass). *)
Definition accrual_entry (b : LeaveBalance) : BalanceHistory :=
  {| h_user_id := lb_user_id b; h_leave_type := lb_leave_type b;
     h_change_amount := accrual_amount (lb_leave_type b);
     h_reason := "monthly_accrual";
     h_balance_before := lb_balance b;
     h_balance_after := lb_balance b + accrual_amount (lb_leave_type b);
     h_created_by := None |}.

(* ------------------------------------------------------------------ *)
(** ** Sample data *)

Definition u1 : User := {| u_id := "u1"; u_name := "Ann"; u_role := agent |}.
Definition u2 : User := {| u_id := "u2"; u_name := "Bob"; u_role := agent |}.
Definition u3 : User := {| u_id := "u3"; u_name := "Cy"; u_role := tl |}.

Definition mk_shift (id owner : string) (d : Z) (t : ShiftType) : Shift := {|
  sh_id := id; sh_user_id := owner; sh_date := d; sh_shift_type := t;
  sh_swapped_with_user_id := None; sh_original_user_id := None
|}.

(** Today is day 100; [s1] and [s2] are upcoming shifts of [u1] and [u2],
    [s0] is a past shift of [u2]. *)
Definition w0 : World := {|
  w_users := [u1; u2; u3];
  w_settings := [{| s_key := "wfm_auto_approve"; s_value := "true" |}];
  w_shifts := <["s0" := mk_shift "s0" "u2" 90 PM]>
                (<["s1" := mk_shift "s1" "u1" 120 AM]>
                  (<["s2" := mk_shift "s2" "u2" 121 PM]> ∅));
  w_swaps := ∅
|}.

Definition leave_form (s e : Z) : LeaveForm := {|
  f_leave_type := annual; f_start_date := Some s; f_end_date := Some e; f_notes := ""
|}.

Definition leave_env0 : LeaveEnv := {|
  env_clock_wfm := 1000; env_clock_tl := 1001; env_new_id := "l1"; env_db_now := 1005;
  env_insert_ok := true
|}.

Definition leave0 (st : LeaveRequestStatus) : LeaveRequest := {|
  lr_id := "l0"; lr_user_id := "u1"; lr_leave_type := sick;
  lr_start_date := 10; lr_end_date := 12; lr_notes := ""; lr_status := st;
  lr_tl_approved_at := None; lr_wfm_approved_at := None; lr_created_at := 500
|}.

Definition swap_r1 (st : SwapRequestStatus) : SwapRequest := {|
  sr_id := "r1"; sr_requester_id := "u1"; sr_target_user_id := "u2";
  sr_requester_shift_id := "s1"; sr_target_shift_id := "s2"; sr_status := st;
  sr_requester_original_date := Some 120; sr_requester_original_shift_type := Some AM;
  sr_target_original_date := Some 121; sr_target_original_shift_type := Some PM;
  sr_created_at := 50
|}.

Definition w1 : World := with_tables w0 (w_shifts w0) {["r1" := swap_r1 pending_approval]}.

Definition w1_approved : World := commit w1 (decideSwapRequest w1 "r1" tl approve).

Definition swap_form (t ms ts : string) : SwapForm :=
  {| targetUserId := t; myShiftId := ms; targetShiftId := ts |}.

Definition leave_of (id owner : string) (created : Z) : LeaveRequest := {|
  lr_id := id; lr_user_id := owner; lr_leave_type := annual;
  lr_start_date := 10; lr_end_date := 12; lr_notes := ""; lr_status := pending_tl;
  lr_tl_approved_at := None; lr_wfm_approved_at := None; lr_created_at := created
|}.

Definition leave_table0 : list LeaveRequest :=
  [leave_of "l1" "u1" 1; leave_of "l2" "u2" 2].

Definition wfm_user : User := {| u_id := "u4"; u_name := "Dee"; u_role := wfm |}.

Definition table_typed : list LeaveRequest :=
  leave_table0 ++ [{| lr_id := "l3"; lr_user_id := "u1"; lr_leave_type := sick;
                      lr_start_date := 20; lr_end_date := 21; lr_notes := "";
                      lr_status := approved; lr_tl_approved_at := Some 3;
                      lr_wfm_approved_at := Some 4; lr_created_at := 3 |}].

Definition pg_s2 : SwapPage :=
  {| pg_form := swap_form "u2" "s1" "s2"; pg_targetShifts := [mk_shift "s2" "u2" 121 PM] |}.

Definition policy_db0 : PolicyDb :=
  {| db_users := [u1; u2; u3]; db_leaves := leave_table0; db_swaps := [swap_r1 pending_acceptance] |}.

Definition comment_on_leave0 (author : string) : Comment :=
  {| c_request_id := "l1"; c_request_type := req_leave; c_user_id := author;
     c_content := "please approve" |}.

Definition forged_history : BalanceHistory :=
  {| h_user_id := "u1"; h_leave_type := "annual"; h_change_amount := 5000;
     h_reason := "manual"; h_balance_before := 0; h_balance_after := 5000;
     h_created_by := None |}.

Definition users0 : list User := [u1; u2; u3].

Definition balances0 : list LeaveBalance :=
  [{| lb_user_id := "u1"; lb_leave_type := "annual"; lb_balance := 1000 |};
   {| lb_user_id := "u1"; lb_leave_type := "casual"; lb_balance := 200 |};
   {| lb_user_id := "u1"; lb_leave_type := "sick"; lb_balance := 300 |};
   {| lb_user_id := "u2"; lb_leave_type := "annual"; lb_balance := 0 |};
   {| lb_user_id := "u9"; lb_leave_type := "annual"; lb_balance := 0 |}].

Definition balances_full : list LeaveBalance :=
  balances0 ++ [{| lb_user_id := "u2"; lb_leave_type := "casual"; lb_balance := 99980 |}].

(** A table read in table order by odd pages and in reverse by even ones. *)
Definition reads_alternating (table : list LeaveRequest) (p : nat) : list LeaveRequest :=
  if Nat.even p then rev table else table.

(** Eleven requests created at the same instant, told apart by their start date. *)
Definition tied_row (i : nat) : LeaveRequest := {|
  lr_id := "t"; lr_user_id := "u2"; lr_leave_type := annual;
  lr_start_date := Z.of_nat i; lr_end_date := Z.of_nat i; lr_notes := "";
  lr_status := pending_tl; lr_tl_approved_at := None; lr_wfm_approved_at := None;
  lr_created_at := 7
|}.

Definition tied_rows : list LeaveRequest := map tied_row (seq 0 11).

Definition theme_only : list SettingRow := [{| s_key := "theme"; s_value := "true" |}].

Example autoApproveFlag_w0 : autoApproveFlag (w_settings w0) = true.
Proof. reflexivity. Qed.

Example fetchAgents_w0 : map u_id (fetchAgents w0 u1) = ["u2"].
Proof. reflexivity. Qed.

Example fetchShifts_w0 : map sh_id (fetchShifts w0 "u2" 100) = ["s2"].
Proof. vm_compute. reflexivity. Qed.

(* ------------------------------------------------------------------ *)
(** ** Leave decisions *)

(** Claim C1: [decideLeaveRequest] is the two-stage state machine.  From
    [pending_tl], approve moves to [pending_wfm] and stamps the team-lead
    decision time when the actor is [tl] or [wfm], and fails with
    [Unauthorized] for an [agent]; reject moves to [rejected] and stamps
    the team-lead time.  From [pending_wfm], every successful approve
    yields [approved] (and the [wfm] actor's approve succeeds), reject
    yields [rejected], both stamping the workforce-manager time.  From
    [approved] or [rejected] every decision fails with [TerminalState]. *)
Theorem decideLeaveRequest_two_stage (r : LeaveRequest) (role : UserRole) (now : Z) :
  (lr_status r = pending_tl ->
     ((role = tl \/ role = wfm) ->
        exists r', decideLeaveRequest r role approve now = Ok r'
                   /\ lr_status r' = pending_wfm /\ lr_tl_approved_at r' = Some now)
     /\ (role = agent -> decideLeaveRequest r role approve now = Err Unauthorized)
     /\ (exists r', decideLeaveRequest r role reject now = Ok r'
                    /\ lr_status r' = rejected /\ lr_tl_approved_at r' = Some now))
  /\ (lr_status r = pending_wfm ->
     (forall r', decideLeaveRequest r role approve now = Ok r' ->
                 lr_status r' = approved /\ lr_wfm_approved_at r' = Some now)
     /\ (role = wfm -> exists r', decideLeaveRequest r role approve now = Ok r')
     /\ (exists r', decideLeaveRequest r role reject now = Ok r'
                    /\ lr_status r' = rejected /\ lr_wfm_approved_at r' = Some now))
  /\ ((lr_status r = approved \/ lr_status r = rejected) ->
     forall d, decideLeaveRequest r role d now = Err TerminalState).
Proof.
  unfold decideLeaveRequest.
  split; [|split].
  - intros Hs. rewrite Hs. split; [|split].
    + intros [-> | ->]; eexists; repeat split.
    + intros ->. reflexivity.
    + eexists; repeat split.
  - intros Hs. rewrite Hs. split; [|split].
    + intros r' H. destruct role; inversion H; subst; split; reflexivity.
    + intros ->. eexists; reflexivity.
    + eexists; repeat split.
  - intros [Hs | Hs] d; rewrite Hs; destruct d; reflexivity.
Qed.

Lemma decideLeaveRequest_two_stage_witness :
  decideLeaveRequest (leave0 pending_tl) agent approve 7 = Err Unauthorized
  /\ exists r', decideLeaveRequest (leave0 pending_tl) tl approve 7 = Ok r'
                /\ lr_status r' = pending_wfm /\ lr_tl_approved_at r' = Some 7.
Proof.
  destruct (decideLeaveRequest_two_stage (leave0 pending_tl) agent 7) as [H1 _].
  destruct (decideLeaveRequest_two_stage (leave0 pending_tl) tl 7) as [H2 _].
  split.
  - apply (proj1 (proj2 (H1 eq_refl))). reflexivity.
  - apply (proj1 (H2 eq_refl)). left. reflexivity.
Defined.

(* ------------------------------------------------------------------ *)
(** ** Swap decisions *)

(** Claim C2: approving a [pending_approval] swap request exchanges the
    owners of its two shifts and marks it [approved]; deciding it again,
    with any role and any decision, fails with [TerminalState], so the
    committed state, and both shift owners, stay as they are. *)
Theorem decideSwapRequest_exchange_once (w w' : World) (id : string)
    (r : SwapRequest) (role role' : UserRole) (d' : Decision) :
  w_swaps w !! id = Some r ->
  sr_status r = pending_approval ->
  decideSwapRequest w id role approve = Ok w' ->
  shift_owner w' (sr_requester_shift_id r) = shift_owner w (sr_target_shift_id r)
  /\ shift_owner w' (sr_target_shift_id r) = shift_owner w (sr_requester_shift_id r)
  /\ sr_status <$> w_swaps w' !! id = Some swap_approved
  /\ decideSwapRequest w' id role' d' = Err TerminalState
  /\ commit w' (decideSwapRequest w' id role' d') = w'.
Proof.
  intros Hr Hst Hd. unfold decideSwapRequest in Hd.
  rewrite Hr, Hst in Hd.
  destruct (is_manager role); simpl in Hd; [|discriminate].
  unfold shift_owner.
  destruct (w_shifts w !! sr_requester_shift_id r) as [a|] eqn:Ha; [|discriminate].
  destruct (w_shifts w !! sr_target_shift_id r) as [b|] eqn:Hb; [|discriminate].
  injection Hd as <-. simpl.
  assert (Hterm : decideSwapRequest
                    (with_tables w
                       (<[sr_requester_shift_id r := reassign_shift a (sh_user_id b)]>
                          (<[sr_target_shift_id r := reassign_shift b (sh_user_id a)]>
                             (w_shifts w)))
                       (<[id := set_swap_status r swap_approved]> (w_swaps w)))
                    id role' d' = Err TerminalState).
  { unfold decideSwapRequest. simpl. rewrite lookup_insert_eq. reflexivity. }
  rewrite Hterm. simpl.
  assert (Hid : sr_status <$> <[id := set_swap_status r swap_approved]> (w_swaps w) !! id
                = Some swap_approved) by (rewrite lookup_insert_eq; reflexivity).
  rewrite Hid. rewrite lookup_insert_eq.
  destruct (decide (sr_target_shift_id r = sr_requester_shift_id r)) as [Heq|Hne].
  - rewrite Heq, lookup_insert_eq. rewrite Heq in Hb.
    rewrite Ha in Hb. injection Hb as <-.
    repeat split; reflexivity.
  - rewrite lookup_insert_ne by congruence. rewrite lookup_insert_eq.
    rewrite ?Ha, ?Hb. repeat split; reflexivity.
Qed.

Lemma decideSwapRequest_exchange_once_witness :
  shift_owner w1_approved "s1" = Some "u2" /\ shift_owner w1_approved "s2" = Some "u1"
  /\ decideSwapRequest w1_approved "r1" wfm approve = Err TerminalState
  /\ commit w1_approved (decideSwapRequest w1_approved "r1" wfm approve) = w1_approved.
Proof.
  destruct (decideSwapRequest_exchange_once w1 w1_approved "r1" (swap_r1 pending_approval)
              tl wfm approve) as (H1 & H2 & _ & H4 & H5).
  - reflexivity.
  - reflexivity.
  - vm_compute. reflexivity.
  - simpl in H1, H2. rewrite H1, H2. split; [vm_compute; reflexivity|].
    split; [vm_compute; reflexivity|]. split; assumption.
Defined.

(* ------------------------------------------------------------------ *)
(** ** Leave creation *)

(** Claim C3 fails: with the flag on, the two decision timestamps are the
    client clock readings made while building the insert, and the
    database fills [created_at] on its own; here the client reads 1000
    and 1001 and the row is created at 1005. *)
Lemma createLeaveRequest_timestamps_not_creation_time :
  exists row,
    fst (createLeaveRequest "u1" (leave_form 10 12) (w_settings w0) leave_env0 []) = Ok row
    /\ lr_status row = approved
    /\ lr_wfm_approved_at row <> Some (lr_created_at row)
    /\ lr_tl_approved_at row <> Some (lr_created_at row).
Proof.
  eexists. split; [reflexivity|]. simpl.
  split; [reflexivity|]. split; discriminate.
Qed.

(** Claim C3, as amended: for a valid date range whose insert the
    database accepts, the request is created; with the auto-approve flag on
    it is [approved] with [wfm_approved_at] and [tl_approved_at] set to the
    two client clock readings taken at submission, with the flag off it is
    [pending_tl] with both timestamps null.  When the database rejects the
    insert, the handler fails with [InsertFailed] and no row is added. *)
Theorem createLeaveRequest_auto_approve (uid : string) (f : LeaveForm)
    (settings : list SettingRow) (env : LeaveEnv) (table : list LeaveRequest) (s e : Z) :
  f_start_date f = Some s -> f_end_date f = Some e -> s <= e ->
  (env_insert_ok env = true ->
   exists row,
    createLeaveRequest uid f settings env table = (Ok row, table ++ [row])
    /\ lr_created_at row = env_db_now env
    /\ (autoApproveFlag settings = true ->
          lr_status row = approved
          /\ lr_wfm_approved_at row = Some (env_clock_wfm env)
          /\ lr_tl_approved_at row = Some (env_clock_tl env))
    /\ (autoApproveFlag settings = false ->
          lr_status row = pending_tl
          /\ lr_wfm_approved_at row = None /\ lr_tl_approved_at row = None))
  /\ (env_insert_ok env = false ->
       createLeaveRequest uid f settings env table = (Err InsertFailed, table)).
Proof.
  intros Hs He Hle. unfold createLeaveRequest. rewrite Hs, He.
  replace (e <? s) with false by (symmetry; apply Z.ltb_ge; lia).
  split; intros Hok; rewrite Hok; [|reflexivity].
  eexists. split; [reflexivity|]. simpl. split; [reflexivity|].
  split; intros ->; repeat split.
Qed.

Lemma createLeaveRequest_auto_approve_witness :
  (exists row,
    createLeaveRequest "u1" (leave_form 10 12) (w_settings w0) leave_env0 []
      = (Ok row, [] ++ [row])
    /\ lr_created_at row = 1005
    /\ lr_status row = approved /\ lr_wfm_approved_at row = Some 1000
    /\ lr_tl_approved_at row = Some 1001)
  /\ createLeaveRequest "u1" (leave_form 10 12) (w_settings w0)
       {| env_clock_wfm := 1000; env_clock_tl := 1001; env_new_id := "l1";
          env_db_now := 1005; env_insert_ok := false |} [] = (Err InsertFailed, []).
Proof.
  split.
  - destruct (createLeaveRequest_auto_approve "u1" (leave_form 10 12) (w_settings w0)
                leave_env0 [] 10 12) as [Hok _]; [reflexivity | reflexivity | lia |].
    destruct (Hok eq_refl) as (row & Heq & Hc & Hon & _).
    exists row. split; [exact Heq|]. split; [exact Hc|]. apply Hon. reflexivity.
  - apply (createLeaveRequest_auto_approve "u1" (leave_form 10 12) (w_settings w0)
             _ [] 10 12); [reflexivity | reflexivity | lia | reflexivity].
Defined.

(** Claim C4: when the end date precedes the start date the handler fails
    with [InvalidRange] and the [leave_requests] table is unchanged. *)
Theorem createLeaveRequest_invalid_range (uid : string) (f : LeaveForm)
    (settings : list SettingRow) (env : LeaveEnv) (table : list LeaveRequest) (s e : Z) :
  f_start_date f = Some s -> f_end_date f = Some e -> e < s ->
  createLeaveRequest uid f settings env table = (Err InvalidRange, table).
Proof.
  intros Hs He Hlt. unfold createLeaveRequest. rewrite Hs, He.
  replace (e <? s) with true by (symmetry; apply Z.ltb_lt; lia).
  reflexivity.
Qed.

Lemma createLeaveRequest_invalid_range_witness :
  createLeaveRequest "u1" (leave_form 12 10) (w_settings w0) leave_env0 []
    = (Err InvalidRange, []).
Proof.
  apply (createLeaveRequest_invalid_range _ _ _ _ _ 12 10);
    [reflexivity | reflexivity | lia].
Defined.

(* ------------------------------------------------------------------ *)
(** ** The auto-approve setting when absent *)

Lemma select_setting_absent (settings : list SettingRow) (k : string) :
  (forall row, In row settings -> s_key row <> k) ->
  select_setting settings k = (None, Some PGRST116).
Proof.
  intros Habs. unfold select_setting.
  replace (List.filter (fun r => bool_decide (s_key r = k)) settings) with (@nil SettingRow).
  - reflexivity.
  - induction settings as [|x l IH]; [reflexivity|]. simpl.
    rewrite bool_decide_false by (apply Habs; left; reflexivity).
    apply IH. intros row Hin. apply Habs. right. exact Hin.
Qed.

(** Claim C9: with no [wfm_auto_approve] row the settings page shows the
    toggle off whatever it showed before, the flag reads false, and every
    leave request the handler creates is [pending_tl] with no decision
    timestamps. *)
Theorem auto_approve_absent_is_false (settings : list SettingRow) :
  (forall row, In row settings -> s_key row <> "wfm_auto_approve") ->
  (forall shown, fetchSettings settings shown = false)
  /\ autoApproveFlag settings = false
  /\ (forall uid f env table row table',
        createLeaveRequest uid f settings env table = (Ok row, table') ->
        lr_status row = pending_tl
        /\ lr_tl_approved_at row = None /\ lr_wfm_approved_at row = None).
Proof.
  intros Habs.
  assert (Hsel := select_setting_absent settings "wfm_auto_approve" Habs).
  assert (Hflag : autoApproveFlag settings = false)
    by (unfold autoApproveFlag; rewrite Hsel; reflexivity).
  split; [|split; [exact Hflag|]].
  - intros shown. unfold fetchSettings. rewrite Hsel. reflexivity.
  - intros uid f env table row table' Hc.
    unfold createLeaveRequest in Hc. rewrite Hflag in Hc.
    destruct (f_start_date f), (f_end_date f); try discriminate.
    destruct (_ <? _); [discriminate|].
    destruct (env_insert_ok env); [|discriminate].
    inversion Hc. repeat split.
Qed.

Lemma auto_approve_absent_is_false_witness :
  fetchSettings theme_only true = false
  /\ autoApproveFlag theme_only = false
  /\ exists row, fst (createLeaveRequest "u1" (leave_form 10 12) theme_only leave_env0 [])
                   = Ok row /\ lr_status row = pending_tl.
Proof.
  destruct (auto_approve_absent_is_false theme_only) as (H1 & H2 & H3).
  - intros row [<- | []]. simpl. discriminate.
  - split; [apply H1|]. split; [exact H2|].
    eexists. split; [reflexivity|].
    apply (H3 "u1" (leave_form 10 12) leave_env0 [] _ _ eq_refl).
Defined.

(* ------------------------------------------------------------------ *)
(** ** Swap creation *)

Lemma swap_insert_allowed_own (me : User) (f : SwapForm) id now :
  swap_insert_allowed me (swap_insert_row me f id now) = true.
Proof. unfold swap_insert_allowed. simpl. rewrite bool_decide_true by reflexivity. reflexivity. Qed.

(** A form with its three fields filled is always inserted. *)
Lemma createSwapRequest_filled (me : User) (f : SwapForm) id now (w : World) :
  targetUserId f <> "" -> myShiftId f <> "" -> targetShiftId f <> "" ->
  createSwapRequest me f id now w
  = (Ok (swap_insert_row me f id now),
     with_tables w (w_shifts w) (<[id := swap_insert_row me f id now]> (w_swaps w))).
Proof.
  intros H1 H2 H3. unfold createSwapRequest.
  rewrite !bool_decide_false by assumption.
  rewrite swap_insert_allowed_own. reflexivity.
Qed.

(** Every successful submission inserts the row of lines 134-140 under its
    new id. *)
Lemma createSwapRequest_ok_inv (me : User) (f : SwapForm) id now (w w' : World) row :
  createSwapRequest me f id now w = (Ok row, w') ->
  targetUserId f <> "" /\ myShiftId f <> "" /\ targetShiftId f <> ""
  /\ row = swap_insert_row me f id now
  /\ w' = with_tables w (w_shifts w) (<[id := row]> (w_swaps w)).
Proof.
  unfold createSwapRequest.
  destruct (bool_decide (targetUserId f = "")) eqn:E1; [discriminate|].
  destruct (bool_decide (myShiftId f = "")) eqn:E2; [discriminate|].
  destruct (bool_decide (targetShiftId f = "")) eqn:E3; [discriminate|].
  rewrite swap_insert_allowed_own. intros H. injection H as <- <-.
  apply bool_decide_eq_false in E1, E2, E3. repeat split; assumption.
Qed.

(** Claim C5 fails: submitting the form with the requester as target is
    accepted and inserts a request whose requester and target coincide. *)
Lemma createSwapRequest_self_target_inserted :
  exists row w',
    createSwapRequest u1 (swap_form "u1" "s1" "s2") "r9" 60 w0 = (Ok row, w')
    /\ sr_requester_id row = sr_target_user_id row
    /\ w_swaps w' !! "r9" = Some row.
Proof.
  do 2 eexists. split; [reflexivity|]. split; reflexivity.
Qed.

(** Claim C5, as amended: the handler makes no requester/target check (a
    filled form is always inserted); the target picker offers only the
    agents [fetchAgents] returns, and none of them is the requester. *)
Theorem createSwapRequest_target_from_picker (w : World) (me : User) :
  (forall t, In t (map u_id (fetchAgents w me)) -> t <> u_id me)
  /\ (forall f id now,
        targetUserId f <> "" -> myShiftId f <> "" -> targetShiftId f <> "" ->
        createSwapRequest me f id now w
        = (Ok (swap_insert_row me f id now),
           with_tables w (w_shifts w) (<[id := swap_insert_row me f id now]> (w_swaps w)))).
Proof.
  split.
  - intros t Hin. apply in_map_iff in Hin as (u & <- & Hu).
    unfold fetchAgents in Hu. apply filter_In in Hu as [_ Hu].
    apply andb_prop in Hu as [_ Hne]. apply negb_true_iff in Hne.
    apply bool_decide_eq_false in Hne. exact Hne.
  - intros f id now. apply createSwapRequest_filled.
Qed.

Lemma createSwapRequest_target_from_picker_witness :
  "u2" <> u_id u1
  /\ createSwapRequest u1 (swap_form "u2" "s1" "s2") "r9" 60 w0
     = (Ok (swap_insert_row u1 (swap_form "u2" "s1" "s2") "r9" 60),
        with_tables w0 (w_shifts w0)
          (<["r9" := swap_insert_row u1 (swap_form "u2" "s1" "s2") "r9" 60]> (w_swaps w0))).
Proof.
  destruct (createSwapRequest_target_from_picker w0 u1) as [H1 H2]. split.
  - apply H1. vm_compute. left. reflexivity.
  - apply H2; simpl; discriminate.
Defined.

(** Claim C6 (code_bug): the inserted row carries no snapshot of the two
    shifts; the four columns of migration 006 are left [NULL]. *)
Theorem createSwapRequest_no_snapshot (me : User) (f : SwapForm) id now (w w' : World)
    (row : SwapRequest) :
  createSwapRequest me f id now w = (Ok row, w') ->
  sr_requester_original_date row = None
  /\ sr_requester_original_shift_type row = None
  /\ sr_target_original_date row = None
  /\ sr_target_original_shift_type row = None.
Proof.
  intros H. apply createSwapRequest_ok_inv in H as (_ & _ & _ & -> & _).
  repeat split.
Qed.

Lemma createSwapRequest_no_snapshot_witness :
  w_shifts w0 !! "s1" = Some (mk_shift "s1" "u1" 120 AM)
  /\ sr_requester_original_date
       (swap_insert_row u1 (swap_form "u2" "s1" "s2") "r9" 60) = None.
Proof.
  split; [reflexivity|].
  apply (createSwapRequest_no_snapshot u1 (swap_form "u2" "s1" "s2") "r9" 60 w0
           (with_tables w0 (w_shifts w0)
              (<["r9" := swap_insert_row u1 (swap_form "u2" "s1" "s2") "r9" 60]> (w_swaps w0)))).
  reflexivity.
Defined.

(** Claim C7 fails: a submission naming a shift of another user as the
    requester's shift and a past shift as the target's shift is inserted. *)
Lemma createSwapRequest_foreign_past_shift_inserted :
  exists row w',
    createSwapRequest u1 (swap_form "u2" "s2" "s0") "r9" 60 w0 = (Ok row, w')
    /\ shift_owner w0 (sr_requester_shift_id row) = Some "u2"
    /\ sr_requester_id row = "u1"
    /\ (sh_date <$> w_shifts w0 !! sr_target_shift_id row) = Some 90
    /\ w_swaps w' !! "r9" = Some row.
Proof.
  do 2 eexists. split; [reflexivity|]. vm_compute. repeat split.
Qed.

Lemma fetchShifts_spec (w : World) (uid : string) (today : Z) (s : Shift) :
  In s (fetchShifts w uid today) <->
  In s (shift_rows w) /\ sh_user_id s = uid /\ today <= sh_date s.
Proof.
  unfold fetchShifts. rewrite filter_In, andb_true_iff, bool_decide_eq_true, Z.leb_le.
  tauto.
Qed.

(** Claim C7, as amended: the handler makes no ownership or date check (a
    filled form is always inserted); the shift pickers offer only rows
    fetched for the given owner with a date not before today. *)
Theorem createSwapRequest_shifts_from_picker (w : World) (me : User) :
  (forall uid today s, In s (fetchShifts w uid today) ->
     In s (shift_rows w) /\ sh_user_id s = uid /\ today <= sh_date s)
  /\ (forall f id now,
        targetUserId f <> "" -> myShiftId f <> "" -> targetShiftId f <> "" ->
        createSwapRequest me f id now w
        = (Ok (swap_insert_row me f id now),
           with_tables w (w_shifts w) (<[id := swap_insert_row me f id now]> (w_swaps w)))).
Proof.
  split.
  - intros uid today s. apply fetchShifts_spec.
  - intros f id now. apply createSwapRequest_filled.
Qed.

Lemma createSwapRequest_shifts_from_picker_witness :
  sh_user_id (mk_shift "s2" "u2" 121 PM) = "u2" /\ 100 <= 121.
Proof.
  destruct (createSwapRequest_shifts_from_picker w0 u1) as [H1 _].
  destruct (H1 "u2" 100 (mk_shift "s2" "u2" 121 PM)) as (_ & Hu & Hd).
  - vm_compute. left. reflexivity.
  - split; assumption.
Defined.

(** Claim C8: every inserted swap request is [pending_acceptance], and the
    outcome is the same whatever the [settings] table (hence the
    auto-approve flag) holds. *)
Theorem createSwapRequest_pending_acceptance (me : User) (f : SwapForm) id now
    (w w' : World) (row : SwapRequest) :
  createSwapRequest me f id now w = (Ok row, w') ->
  sr_status row = pending_acceptance
  /\ w_swaps w' !! id = Some row
  /\ (forall settings,
        createSwapRequest me f id now (with_settings w settings)
        = (Ok row, with_settings w' settings)).
Proof.
  intros H. apply createSwapRequest_ok_inv in H as (H1 & H2 & H3 & -> & ->).
  split; [reflexivity|]. split; [apply lookup_insert_eq|].
  intros settings. rewrite createSwapRequest_filled by assumption. reflexivity.
Qed.

Lemma createSwapRequest_pending_acceptance_witness :
  autoApproveFlag (w_settings w0) = true
  /\ sr_status (swap_insert_row u1 (swap_form "u2" "s1" "s2") "r9" 60) = pending_acceptance.
Proof.
  split; [reflexivity|].
  apply (createSwapRequest_pending_acceptance u1 (swap_form "u2" "s1" "s2") "r9" 60 w0
           (with_tables w0 (w_shifts w0)
              (<["r9" := swap_insert_row u1 (swap_form "u2" "s1" "s2") "r9" 60]> (w_swaps w0)))).
  reflexivity.
Defined.

(* ------------------------------------------------------------------ *)
(** ** Leave listing *)

Lemma insert_desc_perm (r : LeaveRequest) (l : list LeaveRequest) :
  insert_desc r l ≡ₚ r :: l.
Proof.
  induction l as [|x l IH]; simpl; [reflexivity|].
  destruct (lr_created_at x <=? lr_created_at r); [reflexivity|].
  rewrite IH. apply Permutation_swap.
Qed.

Lemma order_created_desc_perm (l : list LeaveRequest) : order_created_desc l ≡ₚ l.
Proof.
  induction l as [|x l IH]; simpl; [reflexivity|].
  rewrite insert_desc_perm, IH. reflexivity.
Qed.

(** Row [i] of the ordered result is on page [i / ITEMS_PER_PAGE + 1]. *)
Lemma range_page_lookup {A} (l : list A) (i : nat) (x : A) :
  l !! i = Some x ->
  In x (range ((S (i / ITEMS_PER_PAGE) - 1) * ITEMS_PER_PAGE)
              (S (i / ITEMS_PER_PAGE) * ITEMS_PER_PAGE - 1) l).
Proof.
  intros Hi. unfold range, ITEMS_PER_PAGE.
  set (k := (i / 10)%nat).
  assert (Hk : (k * 10 <= i < k * 10 + 10)%nat).
  { assert (H10 : (10 <> 0)%nat) by lia.
    pose proof (Nat.div_mod i 10 H10) as Hd.
    pose proof (Nat.mod_upper_bound i 10 H10). subst k. lia. }
  apply list_elem_of_In, list_elem_of_lookup.
  exists (i - k * 10)%nat.
  rewrite lookup_take, lookup_drop.
  replace ((S k - 1) * 10 + (i - k * 10))%nat with i by lia.
  rewrite decide_True by lia. exact Hi.
Qed.

Lemma range_elem {A} (x : A) (from to : nat) (l : list A) :
  x ∈ range from to l -> x ∈ l.
Proof.
  unfold range. intros H. apply elem_of_take in H as (i & Hi & _).
  rewrite lookup_drop in Hi. apply list_elem_of_lookup_2 in Hi. exact Hi.
Qed.

Lemma filter_holds_own (me : User) (r : LeaveRequest) :
  filter_holds r (eq_user_id (u_id me)) = true -> lr_user_id r = u_id me.
Proof. simpl. apply bool_decide_eq_true. Qed.

Lemma insert_desc_sorted (r : LeaveRequest) (l : list LeaveRequest) :
  StronglySorted newer_or_same l -> StronglySorted newer_or_same (insert_desc r l).
Proof.
  induction l as [|x l IH]; intros Hs; simpl.
  - repeat constructor.
  - apply StronglySorted_inv in Hs as [Hs Hx].
    destruct (lr_created_at x <=? lr_created_at r) eqn:E.
    + apply Z.leb_le in E. constructor; [constructor; assumption|].
      constructor; [exact E|].
      eapply Forall_impl; [exact Hx|]. unfold newer_or_same. intros y Hy. lia.
    + apply Z.leb_gt in E. constructor; [apply IH, Hs|].
      apply Forall_forall. intros y Hy.
      rewrite insert_desc_perm in Hy. apply list_elem_of_In in Hy.
      destruct Hy as [<-|Hy].
      * unfold newer_or_same. lia.
      * rewrite Forall_forall in Hx. apply Hx, list_elem_of_In, Hy.
Qed.

Lemma order_created_desc_sorted (l : list LeaveRequest) :
  StronglySorted newer_or_same (order_created_desc l).
Proof.
  induction l as [|x l IH]; simpl; [constructor|]. apply insert_desc_sorted, IH.
Qed.

(** Two newest-first orders of the same rows agree once no two rows share
    a [created_at]. *)
Lemma sorted_desc_unique (l1 l2 : list LeaveRequest) :
  StronglySorted newer_or_same l1 -> StronglySorted newer_or_same l2 ->
  NoDup (map lr_created_at l1) -> l1 ≡ₚ l2 -> l1 = l2.
Proof.
  revert l2. induction l1 as [|a l1 IH]; intros l2 Hs1 Hs2 Hnd Hp.
  - symmetry. apply Permutation_nil. exact Hp.
  - destruct l2 as [|b l2].
    + apply Permutation_length in Hp. discriminate.
    + apply StronglySorted_inv in Hs1 as [Hs1 Ha].
      apply StronglySorted_inv in Hs2 as [Hs2 Hb].
      simpl in Hnd. apply NoDup_cons in Hnd as [Hna Hnd].
      assert (Hab : a = b).
      { assert (Hain : In a (b :: l2)).
        { apply (Permutation_in a Hp). left. reflexivity. }
        assert (Hbin : In b (a :: l1)).
        { apply (Permutation_in b (Permutation_sym Hp)). left. reflexivity. }
        destruct Hain as [->|Hain]; [reflexivity|].
        destruct Hbin as [->|Hbin]; [reflexivity|].
        rewrite Forall_forall in Ha, Hb.
        specialize (Ha b (proj2 (list_elem_of_In _ _) Hbin)).
        specialize (Hb a (proj2 (list_elem_of_In _ _) Hain)). unfold newer_or_same in Ha, Hb.
        exfalso. apply Hna. apply list_elem_of_In, in_map_iff.
        exists b. split; [lia|exact Hbin]. }
      subst b. f_equal. apply IH; [exact Hs1|exact Hs2|exact Hnd|].
      apply Permutation_cons_inv in Hp. exact Hp.
Qed.

Lemma apply_filters_perm (fs : list LeaveFilter) (l1 l2 : list LeaveRequest) :
  l1 ≡ₚ l2 -> apply_filters fs l1 ≡ₚ apply_filters fs l2.
Proof.
  unfold apply_filters. induction 1 as [| x l1 l2 _ IH | x y l | l1 l2 l3 _ IH1 _ IH2];
    simpl.
  - reflexivity.
  - destruct (forallb (filter_holds x) fs); [apply perm_skip|]; exact IH.
  - destruct (forallb (filter_holds x) fs), (forallb (filter_holds y) fs);
      try reflexivity; apply perm_swap.
  - etransitivity; [exact IH1|exact IH2].
Qed.

(** With distinct [created_at] values among the selected rows, the order
    does not depend on how the query reads the table. *)
Lemma order_read_invariant (fs : list LeaveFilter) (read table : list LeaveRequest) :
  NoDup (map lr_created_at (apply_filters fs table)) -> read ≡ₚ table ->
  order_created_desc (apply_filters fs read) = order_created_desc (apply_filters fs table).
Proof.
  intros Hnd Hp. apply sorted_desc_unique; try apply order_created_desc_sorted.
  - rewrite order_created_desc_perm, (apply_filters_perm fs _ _ Hp). exact Hnd.
  - rewrite !order_created_desc_perm. apply apply_filters_perm, Hp.
Qed.

Lemma fetchRequests_read_invariant (me : User) (page : nat) (startDate endDate : option Z)
    (leaveTypeFilter : option LeaveType) (read table : list LeaveRequest) :
  NoDup (map lr_created_at
           (apply_filters (leave_query_filters me startDate endDate leaveTypeFilter) table)) ->
  read ≡ₚ table ->
  fetchRequests me page startDate endDate leaveTypeFilter read
  = fetchRequests me page startDate endDate leaveTypeFilter table.
Proof.
  intros Hnd Hp. unfold fetchRequests. rewrite (order_read_invariant _ read table Hnd Hp).
  reflexivity.
Qed.

(** Claim C10: an agent's listing only holds requests the agent owns; for
    a [tl] or [wfm] user the query carries no ownership filter and its
    result holds every request that passes the page's date and type
    filters, whoever owns it.  Across the separate page queries, each of
    which may read the table in its own order, every such request is
    listed on some page once no two selected requests share a
    [created_at]. *)
Theorem fetchRequests_ownership (me : User) (page : nat) (startDate endDate : option Z)
    (leaveTypeFilter : option LeaveType) (table : list LeaveRequest) :
  (u_role me = agent ->
     forall r, In r (fetchRequests me page startDate endDate leaveTypeFilter table) ->
               lr_user_id r = u_id me)
  /\ ((u_role me = tl \/ u_role me = wfm) ->
     (forall uid, ~ In (eq_user_id uid)
                    (leave_query_filters me startDate endDate leaveTypeFilter))
     /\ (forall r, In r table ->
          forallb (filter_holds r)
            (leave_query_filters me startDate endDate leaveTypeFilter) = true ->
          In r (order_created_desc
                  (apply_filters (leave_query_filters me startDate endDate leaveTypeFilter)
                     table)))
     /\ (NoDup (map lr_created_at
                 (apply_filters (leave_query_filters me startDate endDate leaveTypeFilter)
                    table)) ->
         forall reads : nat -> list LeaveRequest, (forall p, reads p ≡ₚ table) ->
         forall r, In r table ->
          forallb (filter_holds r)
            (leave_query_filters me startDate endDate leaveTypeFilter) = true ->
          exists p, (1 <= p)%nat
                    /\ In r (fetchRequests me p startDate endDate leaveTypeFilter (reads p)))).
Proof.
  split.
  - intros Hrole r Hin.
    unfold fetchRequests in Hin.
    apply list_elem_of_In, range_elem in Hin.
    rewrite order_created_desc_perm in Hin.
    apply list_elem_of_In in Hin. rename Hin into Hi.
    unfold apply_filters in Hi. apply filter_In in Hi as [_ Hall].
    unfold leave_query_filters, isManager in Hall. rewrite Hrole in Hall. simpl in Hall.
    apply andb_prop in Hall as [Hown _]. exact (filter_holds_own me r Hown).
  - intros Hrole.
    assert (Hq : forall r, In r table ->
              forallb (filter_holds r)
                (leave_query_filters me startDate endDate leaveTypeFilter) = true ->
              In r (order_created_desc
                      (apply_filters (leave_query_filters me startDate endDate
                                        leaveTypeFilter) table))).
    { intros r Hin Hpass.
      apply list_elem_of_In. rewrite (order_created_desc_perm _).
      apply list_elem_of_In. unfold apply_filters. apply filter_In. split; assumption. }
    split; [|split; [exact Hq|]].
    + intros uid Hin.
      unfold leave_query_filters, isManager in Hin.
      destruct Hrole as [Hr | Hr]; rewrite Hr in Hin; simpl in Hin;
        destruct startDate, endDate, leaveTypeFilter; simpl in Hin; intuition discriminate.
    + intros Hnd reads Hreads r Hin Hpass.
      pose proof (Hq r Hin Hpass) as Hf.
      apply list_elem_of_In, list_elem_of_lookup in Hf as (i & Hi).
      exists (S (i / ITEMS_PER_PAGE)). split; [lia|].
      rewrite (fetchRequests_read_invariant _ _ _ _ _ _ table Hnd (Hreads _)).
      unfold fetchRequests. apply range_page_lookup. exact Hi.
Qed.

Example fetchRequests_agent_u1 :
  map lr_id (fetchRequests u1 1 None None None leave_table0) = ["l1"].
Proof. reflexivity. Qed.

Example fetchRequests_tl_u3 :
  map lr_id (fetchRequests u3 1 None None None leave_table0) = ["l2"; "l1"].
Proof. reflexivity. Qed.

(** Why C10 needs distinct [created_at] values across pages: with eleven
    tied rows, page 1 read in table order and page 2 read in reverse never
    list the eleventh row. *)
Example fetchRequests_ties_can_skip_row :
  totalPages (leave_total_count u3 None None None tied_rows) = 2%nat
  /\ (10 ∉ map lr_start_date
              (fetchRequests u3 1 None None None (reads_alternating tied_rows 1)))
  /\ (10 ∉ map lr_start_date
              (fetchRequests u3 2 None None None (reads_alternating tied_rows 2))).
Proof.
  split; [vm_compute; reflexivity|].
  split; apply (bool_decide_unpack _); vm_compute; reflexivity.
Qed.

Lemma fetchRequests_ownership_witness :
  (forall r, In r (fetchRequests u1 1 None None None leave_table0) -> lr_user_id r = "u1")
  /\ exists p, (1 <= p)%nat
               /\ In (leave_of "l2" "u2" 2)
                     (fetchRequests u3 p None None None (reads_alternating leave_table0 p)).
Proof.
  destruct (fetchRequests_ownership u1 1 None None None leave_table0) as [H1 _].
  destruct (fetchRequests_ownership u3 1 None None None leave_table0) as [_ H2].
  split.
  - apply H1. reflexivity.
  - destruct (H2 (or_introl eq_refl)) as (_ & _ & H3).
    apply H3.
    + apply (bool_decide_unpack _). vm_compute. reflexivity.
    + intros p. unfold reads_alternating. destruct (Nat.even p);
        [apply Permutation_sym, Permutation_rev|reflexivity].
    + right. left. reflexivity.
    + reflexivity.
Defined.

(* ------------------------------------------------------------------ *)
(** ** Settings toggle *)

Lemma filter_key_nodup (l : list SettingRow) (k : string) :
  NoDup (map s_key l) ->
  List.filter (fun r => bool_decide (s_key r = k)) l = []
  \/ exists r, s_key r = k /\ List.filter (fun r => bool_decide (s_key r = k)) l = [r].
Proof.
  induction l as [|x l IH]; intros Hnd; [left; reflexivity|].
  simpl in Hnd. apply NoDup_cons in Hnd as [Hx Hnd]. simpl.
  destruct (bool_decide (s_key x = k)) eqn:E.
  - apply bool_decide_eq_true in E. right. exists x. split; [exact E|].
    f_equal. destruct (IH Hnd) as [H | (r & Hr & H)]; [exact H|].
    exfalso. apply Hx. rewrite E, <- Hr. apply list_elem_of_In, in_map.
    assert (Hin : In r [r]) by (left; reflexivity). rewrite <- H in Hin.
    apply filter_In in Hin as [Hin _]. exact Hin.
  - exact (IH Hnd).
Qed.

Lemma upsert_setting_keys (l : list SettingRow) (k v : string) :
  existsb (fun r => bool_decide (s_key r = k)) l = true ->
  map s_key (upsert_setting l k v) = map s_key l.
Proof.
  intros He. unfold upsert_setting. rewrite He, map_map.
  apply map_ext. intros r. destruct (bool_decide (s_key r = k)) eqn:E; [|reflexivity].
  apply bool_decide_eq_true in E. simpl. congruence.
Qed.

Lemma filter_key_upsert_map (l : list SettingRow) (k v : string) :
  List.filter (fun r => bool_decide (s_key r = k))
    (map (fun r => if bool_decide (s_key r = k) then {| s_key := k; s_value := v |} else r) l)
  = map (fun _ => {| s_key := k; s_value := v |})
      (List.filter (fun r => bool_decide (s_key r = k)) l).
Proof.
  induction l as [|x l IH]; [reflexivity|]. simpl.
  destruct (bool_decide (s_key x = k)) eqn:E; simpl.
  - rewrite bool_decide_true by reflexivity. rewrite IH. reflexivity.
  - rewrite E. exact IH.
Qed.

Lemma filter_key_absent (l : list SettingRow) (k : string) :
  existsb (fun r => bool_decide (s_key r = k)) l = false ->
  List.filter (fun r => bool_decide (s_key r = k)) l = [].
Proof.
  induction l as [|x l IH]; [reflexivity|]. simpl.
  destruct (bool_decide (s_key x = k)); [discriminate|]. exact IH.
Qed.

Lemma upsert_setting_select (l : list SettingRow) (k v : string) :
  NoDup (map s_key l) ->
  List.filter (fun r => bool_decide (s_key r = k)) (upsert_setting l k v)
    = [{| s_key := k; s_value := v |}]
  /\ NoDup (map s_key (upsert_setting l k v)).
Proof.
  intros Hnd. destruct (existsb (fun r => bool_decide (s_key r = k)) l) eqn:He.
  - split; [|rewrite upsert_setting_keys by exact He; exact Hnd].
    unfold upsert_setting. rewrite He, filter_key_upsert_map.
    destruct (filter_key_nodup l k Hnd) as [H0 | (r & Hr & H1)].
    + exfalso. apply existsb_exists in He as (x & Hx & Hk).
      assert (Hin : In x (List.filter (fun r => bool_decide (s_key r = k)) l))
        by (apply filter_In; split; assumption).
      rewrite H0 in Hin. destruct Hin.
    + rewrite H1. reflexivity.
  - unfold upsert_setting. rewrite He. split.
    + rewrite List.filter_app, filter_key_absent by exact He. simpl.
      rewrite bool_decide_true by reflexivity. reflexivity.
    + rewrite map_app. simpl. apply NoDup_app. split; [exact Hnd|]. split.
      * intros x Hx1 Hx2. apply list_elem_of_singleton in Hx2 as ->.
        apply list_elem_of_In, in_map_iff in Hx1 as (r & Hr & Hin).
        assert (existsb (fun r => bool_decide (s_key r = k)) l = true)
          by (apply existsb_exists; exists r; split;
              [exact Hin | apply bool_decide_eq_true; exact Hr]).
        congruence.
      * apply NoDup_singleton.
Qed.

Lemma value_is_true_bool_to_string (b : bool) : value_is_true (Some (bool_to_string b)) = b.
Proof. destruct b; reflexivity. Qed.

(** For a [wfm] user, [handleToggle] stores the negated page state: the page
    now shows it, a later [fetchSettings] reads it back, new leave requests
    see it as the auto-approve flag, and [settings] keeps one row per key.
    For any other role the write is refused by the table's policies and
    the page keeps its state, reporting the failure. *)
Theorem handleToggle_round_trip (me : User) (autoApprove : bool)
    (settings : list SettingRow) :
  NoDup (map s_key settings) ->
  (u_role me = wfm ->
     let '(shown, msg, settings') := handleToggle me autoApprove settings in
     shown = negb autoApprove
     /\ msg = "Settings saved successfully!"
     /\ (forall prev, fetchSettings settings' prev = negb autoApprove)
     /\ autoApproveFlag settings' = negb autoApprove
     /\ NoDup (map s_key settings'))
  /\ (u_role me <> wfm ->
     handleToggle me autoApprove settings
     = (autoApprove, "Failed to save settings", settings)).
Proof.
  intros Hnd. split.
  - intros Hr. unfold handleToggle, settings_upsert, settings_write_allowed.
    rewrite bool_decide_true by exact Hr.
    destruct (upsert_setting_select settings "wfm_auto_approve"
                (bool_to_string (negb autoApprove)) Hnd) as [Hsel Hnd'].
    assert (Hs : select_setting (upsert_setting settings "wfm_auto_approve"
                                   (bool_to_string (negb autoApprove))) "wfm_auto_approve"
                 = (Some (bool_to_string (negb autoApprove)), None)).
    { unfold select_setting. rewrite Hsel. reflexivity. }
    split; [reflexivity|]. split; [reflexivity|]. split; [|split; [|exact Hnd']].
    + intros prev. unfold fetchSettings. rewrite Hs. apply value_is_true_bool_to_string.
    + unfold autoApproveFlag. rewrite Hs. apply value_is_true_bool_to_string.
  - intros Hr. unfold handleToggle, settings_upsert, settings_write_allowed.
    rewrite bool_decide_false by exact Hr. reflexivity.
Qed.

Lemma handleToggle_round_trip_witness :
  (let '(shown, _, settings') := handleToggle wfm_user true (w_settings w0) in
   shown = false /\ autoApproveFlag settings' = false)
  /\ handleToggle u3 true (w_settings w0) = (true, "Failed to save settings", w_settings w0).
Proof.
  destruct (handleToggle_round_trip wfm_user true (w_settings w0)) as [H1 _].
  - repeat constructor; set_solver.
  - destruct (handleToggle_round_trip u3 true (w_settings w0)) as [_ H2].
    + repeat constructor; set_solver.
    + split.
      * specialize (H1 eq_refl).
        destruct (handleToggle wfm_user true (w_settings w0)) as [[shown msg] s'].
        destruct H1 as (Hs & _ & _ & Hf & _). split; assumption.
      * apply H2. discriminate.
Defined.

(* ------------------------------------------------------------------ *)
(** ** Layout *)

(** The sidebar shows "Schedule Upload" and "Settings" to [wfm] users
    only, the five other entries to every signed-in user, and nothing when
    no user is signed in. *)
Theorem filteredNavItems_by_role (u : User) :
  map nav_name (filteredNavItems (Some u))
  = ["Dashboard"; "Schedule"; "Swap Requests"; "Leave Requests"; "Leave Balances"]
    ++ (if bool_decide (u_role u = wfm) then ["Schedule Upload"; "Settings"] else [])
  /\ filteredNavItems None = [].
Proof. split; [destruct u as [? ? []]; reflexivity | reflexivity]. Qed.

(** Whatever else the browser storage holds, the collapsed state written
    by the effect is the one a reload starts from; with nothing stored the
    sidebar starts expanded. *)
Theorem sidebar_state_round_trip (storage : gmap string string) (collapsed : bool) :
  sidebar_initial (sidebar_save storage collapsed) = Some collapsed
  /\ (storage !! SIDEBAR_COLLAPSED_KEY = None -> sidebar_initial storage = Some false).
Proof.
  split.
  - unfold sidebar_initial, sidebar_save. rewrite lookup_insert_eq.
    destruct collapsed; reflexivity.
  - intros H. unfold sidebar_initial. rewrite H. reflexivity.
Qed.

Lemma sidebar_state_round_trip_witness :
  sidebar_initial (sidebar_save ∅ true) = Some true /\ sidebar_initial ∅ = Some false.
Proof.
  destruct (sidebar_state_round_trip ∅ true) as [H1 H2].
  split; [exact H1 | apply H2; reflexivity].
Defined.

(* ------------------------------------------------------------------ *)
(** ** Leave listing: pages and filters *)

Lemma range_page (l : list LeaveRequest) (p : nat) :
  (1 <= p)%nat ->
  range ((p - 1) * ITEMS_PER_PAGE) (p * ITEMS_PER_PAGE - 1) l
  = take ITEMS_PER_PAGE (drop ((p - 1) * ITEMS_PER_PAGE) l).
Proof.
  intros Hp. unfold range, ITEMS_PER_PAGE.
  replace (S (p * 10 - 1) - (p - 1) * 10)%nat with 10%nat by lia. reflexivity.
Qed.





(** On every page from [1] to [totalPages], the number of rows listed is
    the size of the range the "Showing [from] to [to] of [totalCount]"
    label announces. *)
Theorem fetchRequests_page_matches_label (me : User) (page : nat)
    (startDate endDate : option Z) (leaveTypeFilter : option LeaveType)
    (table : list LeaveRequest) :
  let totalCount := leave_total_count me startDate endDate leaveTypeFilter table in
  (1 <= page <= totalPages totalCount)%nat ->
  length (fetchRequests me page startDate endDate leaveTypeFilter table)
  = (showing_to page totalCount + 1 - showing_from page)%nat.
Proof.
  intros totalCount Hp.
  set (l := order_created_desc
              (apply_filters (leave_query_filters me startDate endDate leaveTypeFilter) table)).
  assert (Hlen : length l = totalCount).
  { unfold l, totalCount, leave_total_count.
    apply Permutation_length, order_created_desc_perm. }
  unfold fetchRequests. fold l. rewrite range_page by lia.
  rewrite length_take, length_drop, Hlen.
  unfold showing_to, showing_from, totalPages, ITEMS_PER_PAGE in *.
  assert (Hlow : ((page - 1) * 10 < totalCount)%nat).
  { destruct Hp as [H1 H2].
    pose proof (Nat.Div0.mul_div_le (totalCount + 10 - 1) 10) as Hm.
    pose proof (Nat.mul_le_mono_r _ _ 10 H2) as H3. lia. }
  lia.
Qed.

Lemma fetchRequests_page_matches_label_witness :
  length (fetchRequests u3 1 None None None leave_table0) = 2%nat.
Proof.
  apply (fetchRequests_page_matches_label u3 1 None None None leave_table0).
  vm_compute. lia.
Defined.

(** The previous and next buttons keep the page between [1] and
    [totalPages]. *)
Theorem page_navigation_in_bounds (total p : nat) :
  (1 <= p <= total)%nat ->
  (1 <= prev_page p <= total)%nat /\ (1 <= next_page total p <= total)%nat
  /\ prev_page p = (if Nat.eqb p 1 then 1 else p - 1)%nat
  /\ next_page total p = (if Nat.eqb p total then total else p + 1)%nat.
Proof.
  intros Hp. unfold prev_page, next_page.
  destruct (Nat.eqb_spec p 1), (Nat.eqb_spec p total); repeat split; lia.
Qed.

Lemma page_navigation_in_bounds_witness :
  prev_page 1 = 1%nat /\ next_page 3 3 = 3%nat.
Proof.
  destruct (page_navigation_in_bounds 3 1 ltac:(lia)) as (_ & _ & H1 & _).
  destruct (page_navigation_in_bounds 3 3 ltac:(lia)) as (_ & _ & _ & H2).
  split; [exact H1 | exact H2].
Defined.

(** Every listed request passes the page's filters: it starts on or after
    the start-date filter, ends on or before the end-date filter and has
    the chosen leave type. *)
Theorem fetchRequests_respects_filters (me : User) (page : nat)
    (startDate endDate : option Z) (leaveTypeFilter : option LeaveType)
    (table : list LeaveRequest) (r : LeaveRequest) :
  In r (fetchRequests me page startDate endDate leaveTypeFilter table) ->
  In r table
  /\ (forall d, startDate = Some d -> d <= lr_start_date r)
  /\ (forall d, endDate = Some d -> lr_end_date r <= d)
  /\ (forall t, leaveTypeFilter = Some t -> lr_leave_type r = t).
Proof.
  intros Hin. unfold fetchRequests in Hin.
  apply list_elem_of_In, range_elem in Hin.
  rewrite order_created_desc_perm in Hin. apply list_elem_of_In in Hin.
  unfold apply_filters in Hin. apply filter_In in Hin as [Hin Hall].
  rewrite forallb_forall in Hall.
  split; [exact Hin|]. unfold leave_query_filters in Hall.
  split; [|split].
  - intros d ->. specialize (Hall (gte_start_date d)).
    simpl in Hall. apply Z.leb_le, Hall. apply in_app_iff. right. left. reflexivity.
  - intros d ->. specialize (Hall (lte_end_date d)).
    simpl in Hall. apply Z.leb_le, Hall. apply in_app_iff. right.
    apply in_app_iff. right. left. reflexivity.
  - intros t ->. specialize (Hall (eq_leave_type t)).
    simpl in Hall. apply (bool_decide_eq_true_1 _), Hall. apply in_app_iff. right.
    apply in_app_iff. right. apply in_app_iff. right. left. reflexivity.
Qed.

Lemma fetchRequests_respects_filters_witness :
  In (leave_of "l2" "u2" 2) table_typed /\ lr_leave_type (leave_of "l2" "u2" 2) = annual.
Proof.
  destruct (fetchRequests_respects_filters u3 1 None None (Some annual) table_typed
              (leave_of "l2" "u2" 2)) as (H1 & _ & _ & H4).
  - vm_compute. left. reflexivity.
  - split; [exact H1 | apply H4; reflexivity].
Defined.

(* ------------------------------------------------------------------ *)
(** ** Swap form: changing the target *)

(** Choosing another colleague clears the chosen target shift once the new
    colleague's upcoming shifts are loaded (or when the choice is cleared),
    so an immediate submission is refused and inserts nothing.  When the
    shift query fails, the earlier target shift and shift list stay. *)
Theorem change_target_resets_shift (w : World) (today : Z) (fetch_ok : bool)
    (pg : SwapPage) (t : string) (me : User) (id : string) (now : Z) (w' : World) :
  ((t = "" \/ fetch_ok = true) ->
     targetShiftId (pg_form (change_target w today fetch_ok pg t)) = ""
     /\ (exists e, createSwapRequest me (pg_form (change_target w today fetch_ok pg t))
                     id now w' = (Err e, w')))
  /\ ((t <> "" /\ fetch_ok = true) ->
     pg_targetShifts (change_target w today fetch_ok pg t) = fetchShifts w t today)
  /\ ((t <> "" /\ fetch_ok = false) ->
     targetShiftId (pg_form (change_target w today fetch_ok pg t)) = targetShiftId (pg_form pg)
     /\ pg_targetShifts (change_target w today fetch_ok pg t) = pg_targetShifts pg).
Proof.
  split; [|split].
  - intros Hc.
    assert (Hreset : targetShiftId (pg_form (change_target w today fetch_ok pg t)) = "").
    { unfold change_target. destruct (bool_decide (t = "")) eqn:E; [reflexivity|].
      destruct Hc as [Ht | ->]; [apply bool_decide_eq_false in E; contradiction|reflexivity]. }
    split; [exact Hreset|].
    remember (pg_form (change_target w today fetch_ok pg t)) as f eqn:Ef.
    clear Ef. unfold createSwapRequest.
    destruct (bool_decide (targetUserId f = "")); [eexists; reflexivity|].
    destruct (bool_decide (myShiftId f = "")); [eexists; reflexivity|].
    rewrite bool_decide_true by exact Hreset. eexists; reflexivity.
  - intros [Ht ->]. unfold change_target. rewrite bool_decide_false by exact Ht. reflexivity.
  - intros [Ht ->]. unfold change_target. rewrite bool_decide_false by exact Ht.
    split; reflexivity.
Qed.

Lemma change_target_resets_shift_witness :
  targetShiftId (pg_form (change_target w0 100 true pg_s2 "u3")) = ""
  /\ targetShiftId (pg_form (change_target w0 100 false pg_s2 "u3")) = "s2".
Proof.
  destruct (change_target_resets_shift w0 100 true pg_s2 "u3" u1 "r9" 60 w0)
    as ((H1 & _) & _).
  - right. reflexivity.
  - destruct (change_target_resets_shift w0 100 false pg_s2 "u3" u1 "r9" 60 w0)
      as (_ & _ & H3).
    split; [exact H1|]. apply H3. split; [discriminate | reflexivity].
Defined.

(* ------------------------------------------------------------------ *)
(** ** Row-level security *)

Lemma has_role_agent_only (users : list User) (uid : string) (roles : list UserRole) :
  (forall u, In u users -> u_id u = uid -> u_role u = agent) ->
  ~ In agent roles ->
  has_role users uid roles = false.
Proof.
  intros Hag Hr. unfold has_role.
  apply not_true_is_false. intros Hex.
  apply existsb_exists in Hex as [u [Hu Hm]].
  apply andb_true_iff in Hm as [Hid Hrole].
  apply bool_decide_eq_true in Hid.
  apply existsb_exists in Hrole as [r [Hin Hr']].
  apply bool_decide_eq_true in Hr'. subst r.
  rewrite (Hag u Hu Hid) in Hin. contradiction.
Qed.

Lemma has_role_member (users : list User) (u : User) (roles : list UserRole) :
  In u users -> In (u_role u) roles -> has_role users (u_id u) roles = true.
Proof.
  intros Hu Hr. unfold has_role. apply existsb_exists. exists u. split; [exact Hu|].
  rewrite bool_decide_true by reflexivity. simpl.
  apply existsb_exists. exists (u_role u). split; [exact Hr|].
  apply bool_decide_eq_true. reflexivity.
Qed.

(** For a user whose rows in [users] are all agents, the [swap_requests]
    policies come down to the row's parties: SELECT and UPDATE for the
    requester and the target, INSERT and DELETE for the requester only; a
    manager (tl or wfm) passes all four. *)
Theorem swap_policies_by_party (users : list User) (uid : string) (sr : SwapRequest) :
  ((forall u, In u users -> u_id u = uid -> u_role u = agent) ->
     swap_select_policy users uid sr
       = bool_decide (uid = sr_requester_id sr) || bool_decide (uid = sr_target_user_id sr)
     /\ swap_update_policy users uid sr
       = bool_decide (uid = sr_requester_id sr) || bool_decide (uid = sr_target_user_id sr)
     /\ swap_insert_policy users uid sr = bool_decide (uid = sr_requester_id sr)
     /\ swap_delete_policy users uid sr = bool_decide (uid = sr_requester_id sr))
  /\ (forall u, In u users -> u_id u = uid -> u_role u <> agent ->
     swap_select_policy users uid sr = true /\ swap_update_policy users uid sr = true
     /\ swap_insert_policy users uid sr = true /\ swap_delete_policy users uid sr = true).
Proof.
  split.
  - intros Hag.
    assert (Hno : has_role users uid [wfm; tl] = false).
    { apply has_role_agent_only; [exact Hag|]. simpl. intros [H|[H|[]]]; discriminate. }
    unfold swap_select_policy, swap_update_policy, swap_insert_policy, swap_delete_policy.
    rewrite Hno. rewrite !orb_false_r. repeat split.
  - intros u Hu Hid Hrole.
    assert (Hyes : has_role users uid [wfm; tl] = true).
    { subst uid. apply has_role_member; [exact Hu|].
      destruct (u_role u); simpl; tauto. }
    unfold swap_select_policy, swap_update_policy, swap_insert_policy, swap_delete_policy.
    rewrite Hyes. rewrite !orb_true_r. repeat split.
Qed.

Lemma swap_policies_by_party_witness :
  swap_delete_policy [u1; u2; u3] "u2" (swap_r1 pending_acceptance) = false
  /\ swap_update_policy [u1; u2; u3] "u2" (swap_r1 pending_acceptance) = true.
Proof.
  destruct (swap_policies_by_party [u1; u2; u3] "u2" (swap_r1 pending_acceptance)) as [Hag Hmgr].
  destruct Hag as (_ & Hu & _ & Hd).
  - intros u Hu Hid. simpl in Hu.
    destruct Hu as [<-|[<-|[<-|[]]]]; simpl in Hid; try discriminate; reflexivity.
  - split; [rewrite Hd | rewrite Hu]; vm_compute; reflexivity.
Defined.

(** Comments: a row can be inserted only under its author's own id, and
    only by someone involved in the request (its owner, a party to the swap)
    or by a manager; an inserted comment is always readable by its author. *)
Theorem comment_insert_policy_spec (db : PolicyDb) (uid : string) (c : Comment) :
  (comment_insert_policy db uid c = true -> comment_select_policy db uid c = true)
  /\ (uid <> c_user_id c -> comment_insert_policy db uid c = false)
  /\ ((forall u, In u (db_users db) -> u_id u = uid -> u_role u = agent) ->
      comment_insert_policy db uid c
        = bool_decide (uid = c_user_id c)
          && match c_request_type c with
             | req_leave => owns_leave db (c_request_id c) uid
             | req_swap => party_to_swap db (c_request_id c) uid
             end).
Proof.
  split; [|split].
  - unfold comment_insert_policy, comment_select_policy. intros H.
    apply andb_true_iff in H as [H _]. rewrite H. reflexivity.
  - intros Hne. unfold comment_insert_policy. rewrite bool_decide_false by exact Hne.
    reflexivity.
  - intros Hag.
    assert (Hno : has_role (db_users db) uid [tl; wfm] = false).
    { apply has_role_agent_only; [exact Hag|]. simpl. intros [H|[H|[]]]; discriminate. }
    unfold comment_insert_policy. rewrite Hno.
    destruct (c_request_type c); rewrite orb_false_r; reflexivity.
Qed.

Lemma comment_insert_policy_spec_witness :
  comment_insert_policy policy_db0 "u2" (comment_on_leave0 "u2") = false
  /\ comment_insert_policy policy_db0 "u3" (comment_on_leave0 "u1") = false.
Proof.
  destruct (comment_insert_policy_spec policy_db0 "u2" (comment_on_leave0 "u2"))
    as (_ & _ & H3).
  destruct (comment_insert_policy_spec policy_db0 "u3" (comment_on_leave0 "u1"))
    as (_ & H2 & _).
  split.
  - rewrite H3; [vm_compute; reflexivity|].
    intros u Hu Hid. simpl in Hu.
    destruct Hu as [<-|[<-|[<-|[]]]]; simpl in Hid; try discriminate; reflexivity.
  - apply H2. discriminate.
Defined.

(** Leave balances: only wfm may update a balance, an agent sees only their
    own rows, and a history row with [created_by] NULL passes the INSERT
    policy for every caller. *)
Theorem balance_policies_spec (users : list User) (uid : string)
    (b : LeaveBalance) (h : BalanceHistory) :
  (balance_update_policy users uid b = true -> balance_select_policy users uid b = true)
  /\ (h_created_by h = None -> history_insert_policy users uid h = true)
  /\ ((forall u, In u users -> u_id u = uid -> u_role u <> wfm) ->
      balance_update_policy users uid b = false)
  /\ ((forall u, In u users -> u_id u = uid -> u_role u = agent) ->
      balance_select_policy users uid b = bool_decide (uid = lb_user_id b)).
Proof.
  split; [|split; [|split]].
  - unfold balance_update_policy, balance_select_policy, has_role. intros H.
    apply existsb_exists in H as [u [Hu Hm]].
    apply orb_true_iff. right. apply existsb_exists. exists u. split; [exact Hu|].
    apply andb_true_iff in Hm as [Hid Hr]. rewrite Hid. simpl.
    apply existsb_exists in Hr as [r [Hin Hr]]. destruct Hin as [<-|[]].
    simpl in Hr |- *. rewrite Hr. apply orb_true_r.
  - intros Hn. unfold history_insert_policy. rewrite bool_decide_true by exact Hn.
    apply orb_true_r.
  - intros Hnw. unfold balance_update_policy, has_role.
    apply not_true_is_false. intros H.
    apply existsb_exists in H as [u [Hu Hm]].
    apply andb_true_iff in Hm as [Hid Hr]. apply bool_decide_eq_true in Hid.
    apply existsb_exists in Hr as [r [Hin Hr]]. destruct Hin as [<-|[]].
    apply bool_decide_eq_true in Hr. exact (Hnw u Hu Hid (eq_sym Hr)).
  - intros Hag. unfold balance_select_policy.
    rewrite has_role_agent_only; [apply orb_false_r|exact Hag|].
    simpl. intros [H|[H|[]]]; discriminate.
Qed.

Lemma balance_policies_spec_witness :
  history_insert_policy [u1; u2; u3] "u1" forged_history = true
  /\ balance_update_policy [u1; u2; u3] "u3"
       {| lb_user_id := "u1"; lb_leave_type := "annual"; lb_balance := 0 |} = false.
Proof.
  destruct (balance_policies_spec [u1; u2; u3] "u1"
              {| lb_user_id := "u1"; lb_leave_type := "annual"; lb_balance := 0 |}
              forged_history) as (_ & H2 & _).
  destruct (balance_policies_spec [u1; u2; u3] "u3"
              {| lb_user_id := "u1"; lb_leave_type := "annual"; lb_balance := 0 |}
              forged_history) as (_ & _ & H3 & _).
  split.
  - apply H2. reflexivity.
  - apply H3. intros u Hu Hid. simpl in Hu.
    destruct Hu as [<-|[<-|[<-|[]]]]; simpl in Hid; try discriminate; discriminate.
Defined.

(* ------------------------------------------------------------------ *)
(** ** Initial leave balances *)

Lemma has_balance_row_app (bal ext : list LeaveBalance) (uid t : string) :
  has_balance_row bal uid t = true -> has_balance_row (bal ++ ext) uid t = true.
Proof.
  unfold has_balance_row. rewrite existsb_app. intros ->. reflexivity.
Qed.

Lemma init_fold_extends (ts : list string) (bal : list LeaveBalance) (uid : string) :
  exists ext,
    fold_left (fun acc t => insert_balance_if_absent acc uid t) ts bal = bal ++ ext
    /\ Forall (fun b => lb_user_id b = uid /\ lb_balance b = 0 /\ In (lb_leave_type b) ts
                        /\ has_balance_row bal uid (lb_leave_type b) = false) ext.
Proof.
  revert bal. induction ts as [|t ts IH]; intros bal; simpl.
  - exists []. rewrite app_nil_r. split; [reflexivity|constructor].
  - destruct (IH (insert_balance_if_absent bal uid t)) as [ext [Heq Hf]].
    rewrite Heq. unfold insert_balance_if_absent in *.
    destruct (has_balance_row bal uid t) eqn:Et.
    + exists ext. split; [reflexivity|].
      eapply Forall_impl; [exact Hf|]. simpl. intros b (H1 & H2 & H3 & H4). auto.
    + exists ({| lb_user_id := uid; lb_leave_type := t; lb_balance := 0 |} :: ext).
      rewrite <- app_assoc. split; [reflexivity|].
      constructor; [simpl; auto|].
      eapply Forall_impl; [exact Hf|]. simpl. intros b (H1 & H2 & H3 & H4).
      repeat split; auto.
      apply not_true_is_false. intros Hb.
      rewrite (has_balance_row_app _ _ _ _ Hb) in H4. discriminate.
Qed.

Lemma insert_balance_keeps (bal : list LeaveBalance) (uid t t' : string) :
  has_balance_row bal uid t = true ->
  has_balance_row (insert_balance_if_absent bal uid t') uid t = true.
Proof.
  intros H. unfold insert_balance_if_absent.
  destruct (has_balance_row bal uid t'); [exact H|apply has_balance_row_app, H].
Qed.

Lemma init_fold_present (ts : list string) (bal : list LeaveBalance) (uid t : string) :
  In t ts \/ has_balance_row bal uid t = true ->
  has_balance_row (fold_left (fun acc t => insert_balance_if_absent acc uid t) ts bal) uid t
    = true.
Proof.
  revert bal. induction ts as [|t' ts IH]; intros bal H; simpl.
  - destruct H as [[]|H]; exact H.
  - destruct H as [[<-|Hin]|H].
    + apply IH. right. unfold insert_balance_if_absent.
      destruct (has_balance_row bal uid t') eqn:E; [exact E|].
      unfold has_balance_row. rewrite existsb_app. simpl.
      unfold row_matches. simpl. rewrite !bool_decide_true by reflexivity.
      apply orb_true_r.
    + apply IH. left. exact Hin.
    + apply IH. right. apply insert_balance_keeps, H.
Qed.

Lemma init_fold_idem (ts : list string) (bal : list LeaveBalance) (uid : string) :
  (forall t, In t ts -> has_balance_row bal uid t = true) ->
  fold_left (fun acc t => insert_balance_if_absent acc uid t) ts bal = bal.
Proof.
  revert bal. induction ts as [|t ts IH]; intros bal H; simpl; [reflexivity|].
  unfold insert_balance_if_absent at 2. rewrite (H t (or_introl eq_refl)).
  apply IH. intros t' Ht'. apply H. right. exact Ht'.
Qed.

(** [initialize_user_leave_balances] only appends zero rows of the new user,
    one of each missing initial type; afterwards every initial type has a
    row, and running it again (ON CONFLICT DO NOTHING) changes nothing. *)
Theorem initialize_user_leave_balances_spec (bal : list LeaveBalance) (uid : string) :
  (exists ext, initialize_user_leave_balances bal uid = bal ++ ext
     /\ Forall (fun b => lb_user_id b = uid /\ lb_balance b = 0
                         /\ In (lb_leave_type b) initial_leave_types
                         /\ has_balance_row bal uid (lb_leave_type b) = false) ext)
  /\ (forall t, In t initial_leave_types ->
        has_balance_row (initialize_user_leave_balances bal uid) uid t = true)
  /\ initialize_user_leave_balances (initialize_user_leave_balances bal uid) uid
       = initialize_user_leave_balances bal uid.
Proof.
  unfold initialize_user_leave_balances. split; [|split].
  - apply init_fold_extends.
  - intros t Ht. apply init_fold_present. left. exact Ht.
  - apply init_fold_idem. intros t Ht. apply init_fold_present. left. exact Ht.
Qed.

(* ------------------------------------------------------------------ *)
(** ** Monthly accrual *)

Lemma bump_user (uid t : string) (amt : Z) (b : LeaveBalance) :
  lb_user_id (bump uid t amt b) = lb_user_id b.
Proof. unfold bump. destruct (row_matches uid t b); reflexivity. Qed.

Lemma bump_type (uid t : string) (amt : Z) (b : LeaveBalance) :
  lb_leave_type (bump uid t amt b) = lb_leave_type b.
Proof. unfold bump. destruct (row_matches uid t b); reflexivity. Qed.

Lemma bump_other (uid t : string) (amt : Z) (b : LeaveBalance) :
  row_matches uid t b = false -> bump uid t amt b = b.
Proof. unfold bump. intros ->. reflexivity. Qed.

Lemma row_matches_iff (uid t : string) (b : LeaveBalance) :
  row_matches uid t b = true <-> lb_user_id b = uid /\ lb_leave_type b = t.
Proof.
  unfold row_matches. rewrite andb_true_iff, !bool_decide_eq_true. reflexivity.
Qed.

Lemma accrue_update_some (bal : list LeaveBalance) (uid t : string) (amt : Z) :
  (forall b, In b bal -> row_matches uid t b = true ->
             fits_decimal_5_2 (lb_balance b + amt) = true) ->
  accrue_update bal uid t amt = Some (map (bump uid t amt) bal).
Proof.
  intros H. unfold accrue_update.
  replace (forallb _ bal) with true; [reflexivity|].
  symmetry. apply forallb_forall. intros b Hb.
  destruct (row_matches uid t b) eqn:E; [apply H; assumption|reflexivity].
Qed.

Lemma accrue_update_none (bal : list LeaveBalance) (uid t : string) (amt : Z)
    (b : LeaveBalance) :
  In b bal -> row_matches uid t b = true -> fits_decimal_5_2 (lb_balance b + amt) = false ->
  accrue_update bal uid t amt = None.
Proof.
  intros Hb Hm Hf. unfold accrue_update.
  replace (forallb _ bal) with false; [reflexivity|].
  symmetry. apply not_true_is_false. intros Hall.
  rewrite forallb_forall in Hall. specialize (Hall b Hb). simpl in Hall.
  rewrite Hm, Hf in Hall. discriminate.
Qed.

Lemma accrue_update_inv (bal bal' : list LeaveBalance) (uid t : string) (amt : Z) :
  accrue_update bal uid t amt = Some bal' -> bal' = map (bump uid t amt) bal.
Proof.
  unfold accrue_update. destruct (forallb _ bal); intros H; inversion H; reflexivity.
Qed.

Lemma accrue_history_in (bal : list LeaveBalance) (uid t : string) (amt : Z)
    (h : BalanceHistory) :
  In h (accrue_history bal uid t amt) <->
  exists lb, In lb bal /\ lb_user_id lb = uid /\ lb_leave_type lb = t
    /\ h = {| h_user_id := uid; h_leave_type := t; h_change_amount := amt;
              h_reason := "monthly_accrual";
              h_balance_before := lb_balance lb - amt;
              h_balance_after := lb_balance lb; h_created_by := None |}.
Proof.
  unfold accrue_history. rewrite in_map_iff. split.
  - intros [lb [<- Hin]]. apply filter_In in Hin as [Hin Hm].
    apply row_matches_iff in Hm as [Hu Ht]. exists lb. auto.
  - intros (lb & Hin & Hu & Ht & ->). exists lb. split; [reflexivity|].
    apply filter_In. split; [exact Hin|]. apply row_matches_iff. auto.
Qed.

Lemma annual_ne_casual : "annual" <> "casual".
Proof. discriminate. Qed.

Lemma accrual_amount_annual : accrual_amount "annual" = 125.
Proof. reflexivity. Qed.

Lemma accrual_amount_casual : accrual_amount "casual" = 50.
Proof. reflexivity. Qed.

Lemma accrued_other (uids : list string) (b : LeaveBalance) :
  lb_user_id b ∉ uids -> accrued uids b = b.
Proof. intros H. unfold accrued. rewrite bool_decide_false by exact H. reflexivity. Qed.

Lemma accrued_user (uids : list string) (b : LeaveBalance) :
  lb_user_id (accrued uids b) = lb_user_id b.
Proof. unfold accrued. destruct (bool_decide _); reflexivity. Qed.

Lemma accrual_entry_of (b : LeaveBalance) (amt : Z) :
  accrual_amount (lb_leave_type b) = amt ->
  {| h_user_id := lb_user_id b; h_leave_type := lb_leave_type b; h_change_amount := amt;
     h_reason := "monthly_accrual";
     h_balance_before := lb_balance b + amt - amt;
     h_balance_after := lb_balance b + amt; h_created_by := None |} = accrual_entry b.
Proof.
  intros Ha. unfold accrual_entry. rewrite Ha. f_equal. lia.
Qed.

Lemma accrued_type (uids : list string) (b : LeaveBalance) :
  lb_leave_type (accrued uids b) = lb_leave_type b.
Proof. unfold accrued. destruct (bool_decide _); reflexivity. Qed.

Lemma row_matches_fields (f : LeaveBalance -> LeaveBalance) (uid t : string) (b : LeaveBalance) :
  lb_user_id (f b) = lb_user_id b -> lb_leave_type (f b) = lb_leave_type b ->
  row_matches uid t (f b) = row_matches uid t b.
Proof. unfold row_matches. intros -> ->. reflexivity. Qed.

(** The history written after an update [f] that added [amt] to the
    matching rows lists those rows, in table order, with the balance each
    held before. *)
Lemma accrue_history_after (f : LeaveBalance -> LeaveBalance) (bal : list LeaveBalance)
    (uid t : string) (amt : Z) :
  (forall b, lb_user_id (f b) = lb_user_id b) ->
  (forall b, lb_leave_type (f b) = lb_leave_type b) ->
  (forall b, row_matches uid t b = true -> lb_balance (f b) = lb_balance b + amt) ->
  accrual_amount t = amt ->
  accrue_history (map f bal) uid t amt = map accrual_entry (List.filter (row_matches uid t) bal).
Proof.
  intros Hu Ht Hb Ha. unfold accrue_history.
  induction bal as [|b bal IH]; [reflexivity|]. simpl.
  rewrite (row_matches_fields f uid t b (Hu b) (Ht b)).
  destruct (row_matches uid t b) eqn:Em; simpl; [|exact IH].
  rewrite IH. f_equal.
  apply row_matches_iff in Em as [Eu Et]. rewrite (Hb b) by (apply row_matches_iff; auto).
  unfold accrual_entry. rewrite Eu, Et, Ha. f_equal. lia.
Qed.

Lemma bump_annual_casual (uid : string) (b : LeaveBalance) :
  bump uid "casual" 50 (bump uid "annual" 125 b) = accrued [uid] b.
Proof.
  unfold accrued. destruct (decide (lb_user_id b = uid)) as [Hu|Hu].
  - rewrite bool_decide_true by (rewrite Hu; left).
    destruct (decide (lb_leave_type b = "annual")) as [Ha|Ha].
    + unfold bump at 2. replace (row_matches uid "annual" b) with true
        by (symmetry; apply row_matches_iff; auto).
      rewrite bump_other.
      * rewrite Ha. reflexivity.
      * apply not_true_is_false. intros Hm. apply row_matches_iff in Hm as [_ Ht].
        simpl in Ht. rewrite Ha in Ht. discriminate.
    + rewrite (bump_other uid "annual").
      2:{ apply not_true_is_false. intros Hm. apply row_matches_iff in Hm. tauto. }
      destruct (decide (lb_leave_type b = "casual")) as [Hc|Hc].
      * unfold bump. replace (row_matches uid "casual" b) with true
          by (symmetry; apply row_matches_iff; auto).
        rewrite Hc. reflexivity.
      * rewrite bump_other.
        2:{ apply not_true_is_false. intros Hm. apply row_matches_iff in Hm. tauto. }
        unfold accrual_amount.
        rewrite (bool_decide_false (lb_leave_type b = "annual")) by exact Ha.
        rewrite (bool_decide_false (lb_leave_type b = "casual")) by exact Hc.
        destruct b; simpl; f_equal; lia.
  - rewrite bool_decide_false by (intros Hin; apply list_elem_of_singleton in Hin; auto).
    rewrite !bump_other; [reflexivity| |];
      apply not_true_is_false; intros Hm; apply row_matches_iff in Hm;
      rewrite ?bump_user in Hm; tauto.
Qed.

(** One pass of the loop body: the user's balances are accrued, and the
    history gains one row per annual balance of the user, then one per
    casual balance. *)
Lemma accrue_user_exact (bal : list LeaveBalance) (hist : list BalanceHistory) (uid : string) :
  (forall b, In b bal -> lb_user_id b = uid ->
             fits_decimal_5_2 (lb_balance b + accrual_amount (lb_leave_type b)) = true) ->
  accrue_user (bal, hist) uid
  = Some (map (accrued [uid]) bal,
          hist ++ (map accrual_entry (List.filter (row_matches uid "annual") bal)
                   ++ map accrual_entry (List.filter (row_matches uid "casual") bal))).
Proof.
  intros Hfit. unfold accrue_user.
  rewrite accrue_update_some.
  2:{ intros b Hb Hm. apply row_matches_iff in Hm as [Hu Ht].
      rewrite <- accrual_amount_annual, <- Ht. apply Hfit; assumption. }
  rewrite accrue_update_some.
  2:{ intros b1 Hb1 Hm. apply in_map_iff in Hb1 as [b [<- Hb]].
      apply row_matches_iff in Hm as [Hu Ht]. rewrite bump_user in Hu. rewrite bump_type in Ht.
      rewrite bump_other.
      2:{ apply not_true_is_false. intros Hm. apply row_matches_iff in Hm as [_ Ht'].
          rewrite Ht in Ht'. discriminate. }
      rewrite <- accrual_amount_casual, <- Ht. apply Hfit; assumption. }
  rewrite map_map.
  rewrite (map_ext _ _ (bump_annual_casual uid)).
  rewrite (accrue_history_after (bump uid "annual" 125) bal uid "annual" 125);
    [|apply bump_user|apply bump_type| |reflexivity].
  2:{ intros b Hm. unfold bump. rewrite Hm. reflexivity. }
  rewrite (accrue_history_after (accrued [uid]) bal uid "casual" 50);
    [|apply accrued_user|apply accrued_type| |reflexivity].
  2:{ intros b Hm. apply row_matches_iff in Hm as [Hu Ht]. unfold accrued.
      rewrite bool_decide_true by (rewrite Hu; left). simpl. rewrite Ht. reflexivity. }
  rewrite app_assoc. reflexivity.
Qed.

Lemma accrued_cons (u : string) (rest : list string) (b : LeaveBalance) :
  u ∉ rest -> accrued rest (accrued [u] b) = accrued (u :: rest) b.
Proof.
  intros Hu. unfold accrued at 2 3.
  destruct (decide (lb_user_id b = u)) as [E|E].
  - rewrite !bool_decide_true by (rewrite E; set_solver).
    apply accrued_other. simpl. rewrite E. exact Hu.
  - rewrite (bool_decide_false (lb_user_id b ∈ [u])) by set_solver.
    unfold accrued. destruct (decide (lb_user_id b ∈ rest)) as [I|I].
    + rewrite !bool_decide_true by set_solver. reflexivity.
    + rewrite !bool_decide_false by set_solver. reflexivity.
Qed.

Lemma filter_accrues_accrued (u : string) (rest : list string) (bal : list LeaveBalance) :
  u ∉ rest ->
  List.filter (accrues rest) (map (accrued [u]) bal) = List.filter (accrues rest) bal.
Proof.
  intros Hu. induction bal as [|b bal IH]; [reflexivity|]. simpl.
  unfold accrues at 1. rewrite accrued_user, accrued_type. fold (accrues rest b).
  destruct (accrues rest b) eqn:E; [|exact IH].
  rewrite IH. f_equal. apply accrued_other.
  unfold accrues in E. apply andb_true_iff in E as [E _]. apply bool_decide_eq_true in E.
  intros Hin. apply list_elem_of_singleton in Hin. rewrite Hin in E. contradiction.
Qed.

(** A balance row is accrued by the pass over [u :: rest] through exactly
    one of: the annual update of [u], the casual update of [u], the rest. *)
Lemma accrues_cases (u : string) (rest : list string) (b : LeaveBalance) :
  u ∉ rest ->
  (accrues (u :: rest) b = true /\ row_matches u "annual" b = true
     /\ row_matches u "casual" b = false /\ accrues rest b = false)
  \/ (accrues (u :: rest) b = true /\ row_matches u "annual" b = false
     /\ row_matches u "casual" b = true /\ accrues rest b = false)
  \/ (accrues (u :: rest) b = true /\ row_matches u "annual" b = false
     /\ row_matches u "casual" b = false /\ accrues rest b = true)
  \/ (accrues (u :: rest) b = false /\ row_matches u "annual" b = false
     /\ row_matches u "casual" b = false /\ accrues rest b = false).
Proof.
  intros Hu. unfold accrues, row_matches.
  destruct (decide (lb_user_id b = u)) as [Eu|Eu].
  - assert (lb_user_id b ∉ rest) by (rewrite Eu; exact Hu).
    rewrite (bool_decide_true (lb_user_id b = u)) by exact Eu.
    rewrite (bool_decide_true (lb_user_id b ∈ u :: rest)) by (rewrite Eu; set_solver).
    rewrite (bool_decide_false (lb_user_id b ∈ rest)) by assumption.
    destruct (decide (lb_leave_type b = "annual")) as [Ea|Ea].
    + rewrite (bool_decide_true (lb_leave_type b = "annual")) by exact Ea.
      rewrite (bool_decide_false (lb_leave_type b = "casual")) by (rewrite Ea; discriminate).
      left. auto.
    + rewrite (bool_decide_false (lb_leave_type b = "annual")) by exact Ea.
      destruct (decide (lb_leave_type b = "casual")) as [Ec|Ec].
      * rewrite (bool_decide_true (lb_leave_type b = "casual")) by exact Ec.
        right. left. auto.
      * rewrite (bool_decide_false (lb_leave_type b = "casual")) by exact Ec.
        right. right. right. auto.
  - rewrite (bool_decide_false (lb_user_id b = u)) by exact Eu. simpl.
    destruct (decide (lb_user_id b ∈ rest)) as [Er|Er].
    + rewrite (bool_decide_true (lb_user_id b ∈ rest)) by exact Er.
      rewrite (bool_decide_true (lb_user_id b ∈ u :: rest)) by set_solver. simpl.
      destruct (bool_decide (lb_leave_type b = "annual") || bool_decide (lb_leave_type b = "casual"));
        [right; right; left|right; right; right]; auto.
    + rewrite (bool_decide_false (lb_user_id b ∈ rest)) by exact Er.
      rewrite (bool_decide_false (lb_user_id b ∈ u :: rest)) by set_solver.
      right. right. right. auto.
Qed.

Lemma accrual_entries_split (u : string) (rest : list string) (bal : list LeaveBalance) :
  u ∉ rest ->
  map accrual_entry (List.filter (accrues (u :: rest)) bal)
  ≡ₚ map accrual_entry (List.filter (row_matches u "annual") bal)
     ++ map accrual_entry (List.filter (row_matches u "casual") bal)
     ++ map accrual_entry (List.filter (accrues rest) bal).
Proof.
  intros Hu. induction bal as [|b bal IH]; [reflexivity|]. simpl.
  destruct (accrues_cases u rest b Hu) as [(-> & -> & -> & ->)|[(-> & -> & -> & ->)|
    [(-> & -> & -> & ->)|(-> & -> & -> & ->)]]]; simpl.
  - apply perm_skip, IH.
  - rewrite IH. apply Permutation_middle.
  - rewrite IH, !app_assoc. apply Permutation_middle.
  - exact IH.
Qed.

Lemma accrue_loop_exact (uids : list string) (bal : list LeaveBalance)
    (hist : list BalanceHistory) :
  NoDup uids ->
  (forall b, In b bal -> lb_user_id b ∈ uids ->
             fits_decimal_5_2 (lb_balance b + accrual_amount (lb_leave_type b)) = true) ->
  exists H, accrue_loop uids (bal, hist) = Some (map (accrued uids) bal, hist ++ H)
    /\ H ≡ₚ map accrual_entry (List.filter (accrues uids) bal).
Proof.
  revert bal hist. induction uids as [|u rest IH]; intros bal hist Hnd Hfit.
  - exists []. simpl. split.
    + assert (Hm : map (accrued []) bal = bal).
      { clear Hfit. induction bal as [|b bal IHb]; simpl; [reflexivity|].
        rewrite IHb, accrued_other by set_solver. reflexivity. }
      rewrite Hm, app_nil_r. reflexivity.
    + assert (Hf : List.filter (accrues []) bal = []).
      { clear Hfit. induction bal as [|b bal IHb]; [reflexivity|]. cbn [List.filter].
        destruct (accrues [] b) eqn:E; [|exact IHb].
        unfold accrues in E. apply andb_true_iff in E as [E _].
        apply bool_decide_eq_true in E. set_solver. }
      rewrite Hf. reflexivity.
  - apply NoDup_cons in Hnd as [Hu Hnd].
    pose proof (accrue_user_exact bal hist u) as Hstep.
    destruct (IH (map (accrued [u]) bal)
                 (hist ++ (map accrual_entry (List.filter (row_matches u "annual") bal)
                           ++ map accrual_entry (List.filter (row_matches u "casual") bal)))
                 Hnd) as [H2 [Hrest Hperm]].
    { intros b1 Hb1 Hr. apply in_map_iff in Hb1 as [b [<- Hb]].
      rewrite accrued_user in Hr.
      rewrite accrued_other by (intros Hin; apply list_elem_of_singleton in Hin;
                                 rewrite Hin in Hr; contradiction).
      apply Hfit; [exact Hb|]. set_solver. }
    exists ((map accrual_entry (List.filter (row_matches u "annual") bal)
             ++ map accrual_entry (List.filter (row_matches u "casual") bal)) ++ H2).
    cbn [accrue_loop]. rewrite Hstep.
    2:{ intros b Hb Hbu. apply Hfit; [exact Hb|]. rewrite Hbu. set_solver. }
    rewrite Hrest. split.
    + rewrite map_map, <- !app_assoc. f_equal. f_equal. apply map_ext. intros b.
      apply accrued_cons. exact Hu.
    + rewrite Hperm, filter_accrues_accrued by exact Hu.
      rewrite accrual_entries_split by exact Hu. rewrite app_assoc. reflexivity.
Qed.

Lemma accrue_user_none (bal : list LeaveBalance) (hist : list BalanceHistory)
    (uid : string) (b : LeaveBalance) :
  In b bal -> lb_user_id b = uid ->
  (lb_leave_type b = "annual" \/ lb_leave_type b = "casual") ->
  fits_decimal_5_2 (lb_balance b + accrual_amount (lb_leave_type b)) = false ->
  accrue_user (bal, hist) uid = None.
Proof.
  intros Hb Hu [Ha|Hc] Hf; unfold accrue_user.
  - rewrite Ha, accrual_amount_annual in Hf.
    rewrite (accrue_update_none bal uid "annual" 125 b); [reflexivity|exact Hb| |exact Hf].
    apply row_matches_iff. auto.
  - rewrite Hc, accrual_amount_casual in Hf.
    destruct (accrue_update bal uid "annual" 125) as [bal1|] eqn:E; [|reflexivity].
    apply accrue_update_inv in E. subst bal1.
    rewrite (accrue_update_none _ uid "casual" 50 b); [reflexivity| |apply row_matches_iff; auto|exact Hf].
    rewrite <- (bump_other uid "annual" 125 b) at 1.
    + apply in_map, Hb.
    + apply not_true_is_false. intros Hm. apply row_matches_iff in Hm as [_ Ht].
      rewrite Hc in Ht. discriminate.
Qed.

Lemma accrue_user_keeps (bal : list LeaveBalance) (hist : list BalanceHistory)
    (uid : string) (st : list LeaveBalance * list BalanceHistory) (b : LeaveBalance) :
  accrue_user (bal, hist) uid = Some st -> In b bal -> lb_user_id b <> uid -> In b (fst st).
Proof.
  intros Hst Hb Hu. unfold accrue_user in Hst.
  destruct (accrue_update bal uid "annual" 125) as [bal1|] eqn:E1; [|discriminate].
  destruct (accrue_update bal1 uid "casual" 50) as [bal2|] eqn:E2; [|discriminate].
  inversion Hst; subst st; simpl.
  apply accrue_update_inv in E1, E2. subst bal1 bal2.
  assert (Hk : forall t amt, bump uid t amt b = b).
  { intros t amt. apply bump_other. apply not_true_is_false. intros Hm.
    apply row_matches_iff in Hm. tauto. }
  rewrite <- (Hk "casual" 50), <- (Hk "annual" 125) at 1.
  apply in_map, in_map, Hb.
Qed.

Lemma accrue_loop_none (uids : list string) (bal : list LeaveBalance)
    (hist : list BalanceHistory) (b : LeaveBalance) :
  In b bal -> lb_user_id b ∈ uids ->
  (lb_leave_type b = "annual" \/ lb_leave_type b = "casual") ->
  fits_decimal_5_2 (lb_balance b + accrual_amount (lb_leave_type b)) = false ->
  accrue_loop uids (bal, hist) = None.
Proof.
  revert bal hist. induction uids as [|u rest IH]; intros bal hist Hb Hin Ht Hf.
  - set_solver.
  - cbn [accrue_loop]. destruct (decide (lb_user_id b = u)) as [E|E].
    + rewrite (accrue_user_none bal hist u b Hb E Ht Hf). reflexivity.
    + destruct (accrue_user (bal, hist) u) as [[bal' hist']|] eqn:Es; [|reflexivity].
      apply (IH bal' hist'); [| |exact Ht|exact Hf].
      * exact (accrue_user_keeps bal hist u (bal', hist') b Es Hb E).
      * set_solver.
Qed.

(** When every annual and casual balance of a user fits [DECIMAL(5,2)] after
    the accrual, [accrue_monthly_leave_balances] adds 1.25 to each annual and
    0.5 to each casual row of every user and leaves every other row as it
    was; the rows it appends to the history are, up to order, exactly one
    [monthly_accrual] row per accrued balance, recording the balance before
    and after. *)
Theorem accrue_monthly_leave_balances_spec (users : list User) (bal : list LeaveBalance)
    (hist : list BalanceHistory) :
  NoDup (map u_id users) ->
  (forall b, In b bal -> lb_user_id b ∈ map u_id users ->
             fits_decimal_5_2 (lb_balance b + accrual_amount (lb_leave_type b)) = true) ->
  exists H,
    accrue_monthly_leave_balances users bal hist
      = Some (map (accrued (map u_id users)) bal, hist ++ H)
    /\ H ≡ₚ map accrual_entry (List.filter (accrues (map u_id users)) bal).
Proof.
  intros Hnd Hfit. unfold accrue_monthly_leave_balances.
  apply accrue_loop_exact; assumption.
Qed.

(** One annual or casual balance of an existing user that would overflow
    [DECIMAL(5,2)] makes the whole accrual fail: nothing is returned, and no
    balance or history row of any user is changed. *)
Theorem accrue_monthly_leave_balances_overflow (users : list User)
    (bal : list LeaveBalance) (hist : list BalanceHistory) (b : LeaveBalance) :
  In b bal -> lb_user_id b ∈ map u_id users ->
  (lb_leave_type b = "annual" \/ lb_leave_type b = "casual") ->
  fits_decimal_5_2 (lb_balance b + accrual_amount (lb_leave_type b)) = false ->
  accrue_monthly_leave_balances users bal hist = None.
Proof.
  intros Hb Hin Ht Hf. unfold accrue_monthly_leave_balances.
  exact (accrue_loop_none _ bal hist b Hb Hin Ht Hf).
Qed.

Lemma accrue_monthly_leave_balances_spec_witness :
  exists H, accrue_monthly_leave_balances users0 balances0 []
    = Some ([{| lb_user_id := "u1"; lb_leave_type := "annual"; lb_balance := 1125 |};
             {| lb_user_id := "u1"; lb_leave_type := "casual"; lb_balance := 250 |};
             {| lb_user_id := "u1"; lb_leave_type := "sick"; lb_balance := 300 |};
             {| lb_user_id := "u2"; lb_leave_type := "annual"; lb_balance := 125 |};
             {| lb_user_id := "u9"; lb_leave_type := "annual"; lb_balance := 0 |}], H)
    /\ length H = 3%nat.
Proof.
  destruct (accrue_monthly_leave_balances_spec users0 balances0 []) as [H [Heq Hperm]].
  - apply (bool_decide_unpack _). vm_compute. reflexivity.
  - intros b Hb _. simpl in Hb.
    destruct Hb as [<-|[<-|[<-|[<-|[<-|[]]]]]]; reflexivity.
  - exists H. split.
    + rewrite Heq. vm_compute. reflexivity.
    + rewrite (Permutation_length Hperm). vm_compute. reflexivity.
Defined.

Lemma accrue_monthly_leave_balances_overflow_witness :
  accrue_monthly_leave_balances users0 balances_full [] = None.
Proof.
  apply (accrue_monthly_leave_balances_overflow users0 balances_full []
           {| lb_user_id := "u2"; lb_leave_type := "casual"; lb_balance := 99980 |}).
  - vm_compute. tauto.
  - apply (bool_decide_unpack _). vm_compute. reflexivity.
  - right. reflexivity.
  - reflexivity.
Defined.
